(** * Shallow embedding of the duty-report engine of bus-reports-exporter

    Sources: [src/src/reports_exporter.py], [src/src/utils/time.py],
    [src/src/schemas.py], [src/src/enums.py].

    Python exceptions are modelled by the [exn] type and the [result] error
    monad; JSON records are Rocq records whose field types follow
    [DRIVERS_SCHEDULE_SCHEMA]; a value whose Python type matters for a
    comparison (an id or a sequence label) is a [pyval]. *)

From Stdlib Require Import ZArith List String Ascii Bool Lia Sorted Permutation.
From Stdlib Require Import DecimalString.
Import ListNotations.
Open Scope string_scope.
Open Scope Z_scope.

(* ------------------------------------------------------------------ *)
(** ** Python exceptions and the error monad *)

Inductive exn :=
| KeyError
| IndexError
| TypeError
| ValueError
| ValidationError
| AssertionError.

Inductive result (A : Type) :=
| Ok (a : A)
| Err (e : exn).
Arguments Ok {A} a.
Arguments Err {A} e.

Definition bind {A B} (m : result A) (k : A -> result B) : result B :=
  match m with
  | Ok a => k a
  | Err e => Err e
  end.

Notation "x <- m ;; k" := (bind m (fun x => k))
  (at level 61, m at next level, right associativity).

(** [for x in xs: f(x)] collecting results, stopping at the first exception. *)
Fixpoint map_r {A B} (f : A -> result B) (xs : list A) : result (list B) :=
  match xs with
  | [] => Ok []
  | x :: xs' => y <- f x ;; ys <- map_r f xs' ;; Ok (y :: ys)
  end.

(* ------------------------------------------------------------------ *)
(** ** Python values used as ids and sequence labels *)

Inductive pyval :=
| PStr (s : string)
| PInt (z : Z).

(** Python's [str] on integers, e.g. [str(-5) = "-5"]. *)
Definition Z_to_string (z : Z) : string :=
  NilEmpty.string_of_int (Z.to_int z).

Definition py_str (v : pyval) : string :=
  match v with
  | PStr s => s
  | PInt z => Z_to_string z
  end.

(** [==] : values of different types are never equal; [None] (a missing
    key read with [.get]) equals nothing here. *)
Definition py_eq (a : option pyval) (b : pyval) : bool :=
  match a, b with
  | Some (PStr x), PStr y => String.eqb x y
  | Some (PInt x), PInt y => Z.eqb x y
  | _, _ => false
  end.

(** Lexicographic order of Python strings (by code point). *)
Fixpoint str_ltb (a b : string) : bool :=
  match a, b with
  | EmptyString, EmptyString => false
  | EmptyString, String _ _ => true
  | String _ _, EmptyString => false
  | String c a', String d b' =>
      if Nat.ltb (nat_of_ascii c) (nat_of_ascii d) then true
      else if Nat.eqb (nat_of_ascii c) (nat_of_ascii d) then str_ltb a' b'
      else false
  end.

(** [<] : comparing a [str] with an [int] (or with [None]) raises [TypeError]. *)
Definition py_lt (a : option pyval) (b : pyval) : result bool :=
  match a, b with
  | Some (PStr x), PStr y => Ok (str_ltb x y)
  | Some (PInt x), PInt y => Ok (Z.ltb x y)
  | _, _ => Err TypeError
  end.

(** [xs[i]] with Python's negative indices; out of range raises [IndexError]. *)
Definition py_index {A} (xs : list A) (i : Z) : result A :=
  let n := Z.of_nat (List.length xs) in
  let j := if Z.ltb i 0 then i + n else i in
  if Z.ltb j 0 then Err IndexError
  else match nth_error xs (Z.to_nat j) with
       | Some x => Ok x
       | None => Err IndexError
       end.

(** [xs[-1]] *)
Definition py_last {A} (xs : list A) : result A := py_index xs (-1)%Z.

(* ------------------------------------------------------------------ *)
(** ** String helpers *)

Definition is_digit (c : ascii) : bool :=
  Nat.leb 48 (nat_of_ascii c) && Nat.leb (nat_of_ascii c) 57.

Definition digit_val (c : ascii) : Z := Z.of_nat (nat_of_ascii c - 48)%nat.

(** [s.split(sep)] *)
Fixpoint py_split (sep : ascii) (s : string) : list string :=
  match s with
  | EmptyString => [EmptyString]
  | String c s' =>
      if Ascii.eqb c sep then EmptyString :: py_split sep s'
      else match py_split sep s' with
           | h :: t => String c h :: t
           | [] => [String c EmptyString]
           end
  end.

(** [str.isspace] on the code points 0..255: [\t\n\v\f\r], [\x1c]..[\x1f],
    space, [\x85] and [\xa0]. *)
Definition py_isspace (c : ascii) : bool :=
  let n := nat_of_ascii c in
  (Nat.leb 9 n && Nat.leb n 13) || (Nat.leb 28 n && Nat.leb n 32) ||
  Nat.eqb n 133 || Nat.eqb n 160.

Fixpoint lstrip_space (cs : list ascii) : list ascii :=
  match cs with
  | c :: cs' => if py_isspace c then lstrip_space cs' else cs
  | [] => []
  end.

(** [s.strip()] *)
Definition strip_space (cs : list ascii) : list ascii :=
  rev (lstrip_space (rev (lstrip_space cs))).

(** Decimal digits, a single [_] allowed between two digits. *)
Fixpoint digits_value (acc : Z) (cs : list ascii) : option Z :=
  match cs with
  | [] => Some acc
  | c :: cs' =>
      if is_digit c then digits_value (10 * acc + digit_val c) cs'
      else if Ascii.eqb c "_" then
        match cs' with
        | d :: _ => if is_digit d then digits_value acc cs' else None
        | [] => None
        end
      else None
  end.

Definition unsigned_value (cs : list ascii) : option Z :=
  match cs with
  | c :: _ => if is_digit c then digits_value 0 cs else None
  | [] => None
  end.

Definition signed_value (cs : list ascii) : option Z :=
  match cs with
  | "-"%char :: cs' => option_map Z.opp (unsigned_value cs')
  | "+"%char :: cs' => unsigned_value cs'
  | _ => unsigned_value cs
  end.

(** [int(s)] with base 10: surrounding whitespace, an optional sign, then
    decimal digits with single underscores between them; anything else is a
    [ValueError]. *)
Definition py_int (s : string) : result Z :=
  match signed_value (strip_space (list_ascii_of_string s)) with
  | Some v => Ok v
  | None => Err ValueError
  end.

(** ["start" in s.lower()] *)
Definition lower_ascii (c : ascii) : ascii :=
  let n := nat_of_ascii c in
  if Nat.leb 65 n && Nat.leb n 90 then ascii_of_nat (n + 32)%nat else c.

Definition py_lower (s : string) : string :=
  string_of_list_ascii (map lower_ascii (list_ascii_of_string s)).

Fixpoint py_contains (needle s : string) : bool :=
  String.prefix needle s ||
  match s with
  | EmptyString => false
  | String _ s' => py_contains needle s'
  end.

(* ------------------------------------------------------------------ *)
(** ** [src/src/utils/time.py] *)

(** [day_offset_to_simple_time]: [s.split(".")[1]]; the [IndexError] of a
    string without a dot is re-raised as [ValueError]. *)
Definition day_offset_to_simple_time (s : string) : result string :=
  match py_split "." s with
  | _ :: t :: _ => Ok t
  | _ => Err ValueError
  end.

(** [datetime.strptime(s, "%d.%H:%M")].  CPython compiles the format to the
    regular expression
    [(3[01]|[12]\d|0[1-9]|[1-9]| [1-9])\.(2[0-3]|[0-1]\d|\d):([0-5]\d|\d)],
    takes the first match found by backtracking in alternative order, and
    raises [ValueError] when nothing matches or when unconverted data
    remains.  The matchers below are written in continuation-passing style so
    that a failing continuation makes the next alternative be tried. *)
Section Strptime.
Variable X : Type.

Definition orelse (a b : option X) : option X :=
  match a with
  | Some x => Some x
  | None => b
  end.

Definition in_range (lo hi : nat) (c : ascii) : bool :=
  Nat.leb lo (nat_of_ascii c) && Nat.leb (nat_of_ascii c) hi.

(** [%d] : [3[01]|[12]\d|0[1-9]|[1-9]| [1-9]] *)
Definition match_d (k : Z -> list ascii -> option X) (s : list ascii) : option X :=
  orelse (match s with
          | c1 :: c2 :: r => if Ascii.eqb c1 "3" && in_range 48 49 c2
                             then k (30 + digit_val c2) r else None
          | _ => None end)
  (orelse (match s with
           | c1 :: c2 :: r => if in_range 49 50 c1 && is_digit c2
                              then k (10 * digit_val c1 + digit_val c2) r else None
           | _ => None end)
  (orelse (match s with
           | c1 :: c2 :: r => if Ascii.eqb c1 "0" && in_range 49 57 c2
                              then k (digit_val c2) r else None
           | _ => None end)
  (orelse (match s with
           | c1 :: r => if in_range 49 57 c1 then k (digit_val c1) r else None
           | _ => None end)
          (match s with
           | c1 :: c2 :: r => if Ascii.eqb c1 " " && in_range 49 57 c2
                              then k (digit_val c2) r else None
           | _ => None end)))).

(** [%H] : [2[0-3]|[0-1]\d|\d] *)
Definition match_H (k : Z -> list ascii -> option X) (s : list ascii) : option X :=
  orelse (match s with
          | c1 :: c2 :: r => if Ascii.eqb c1 "2" && in_range 48 51 c2
                             then k (20 + digit_val c2) r else None
          | _ => None end)
  (orelse (match s with
           | c1 :: c2 :: r => if in_range 48 49 c1 && is_digit c2
                              then k (10 * digit_val c1 + digit_val c2) r else None
           | _ => None end)
          (match s with
           | c1 :: r => if is_digit c1 then k (digit_val c1) r else None
           | _ => None end)).

(** [%M] : [[0-5]\d|\d] *)
Definition match_M (k : Z -> list ascii -> option X) (s : list ascii) : option X :=
  orelse (match s with
          | c1 :: c2 :: r => if in_range 48 53 c1 && is_digit c2
                             then k (10 * digit_val c1 + digit_val c2) r else None
          | _ => None end)
         (match s with
          | c1 :: r => if is_digit c1 then k (digit_val c1) r else None
          | _ => None end).

Definition match_lit (c : ascii) (k : list ascii -> option X) (s : list ascii) : option X :=
  match s with
  | c' :: r => if Ascii.eqb c c' then k r else None
  | [] => None
  end.
End Strptime.

Arguments match_d {X} k s.
Arguments match_H {X} k s.
Arguments match_M {X} k s.
Arguments match_lit {X} c k s.

(** A [datetime(1900, 1, day, hour, minute)]. *)
Record datetime := mk_datetime { dt_day : Z; dt_hour : Z; dt_minute : Z }.

(** Seconds since 1900-01-01 00:00. *)
Definition dt_seconds (d : datetime) : Z :=
  (((dt_day d - 1) * 24 + dt_hour d) * 60 + dt_minute d) * 60.

Definition strptime_dHM (s : string) : result datetime :=
  match match_d (fun d => match_lit "." (match_H (fun h => match_lit ":"
          (match_M (fun m rest => Some (mk_datetime d h m, rest))))))
          (list_ascii_of_string s) with
  | Some (dt, []) => Ok dt          (* January has 31 days: every [%d] is valid *)
  | Some (_, _ :: _) => Err ValueError  (* "unconverted data remains" *)
  | None => Err ValueError           (* "does not match format" *)
  end.

(** [calculate_duration_in_minutes]: the day offset [n] becomes the day of
    month [n + 1]; the result is [int(duration.total_seconds() // 60)]. *)
Definition calculate_duration_in_minutes (start_time end_time : string) : result Z :=
  match py_split "." start_time with
  | [start_day; start_t] =>
      match py_split "." end_time with
      | [end_day; end_t] =>
          sd <- py_int start_day ;;
          ed <- py_int end_day ;;
          sdt <- strptime_dHM (Z_to_string (sd + 1) ++ "." ++ start_t) ;;
          edt <- strptime_dHM (Z_to_string (ed + 1) ++ "." ++ end_t) ;;
          Ok ((dt_seconds edt - dt_seconds sdt) / 60)
      | _ => Err ValueError
      end
  | _ => Err ValueError
  end.

(* ------------------------------------------------------------------ *)
(** ** Data model: [src/src/enums.py] and [src/src/schemas.py] *)

(** Duty event types other than [vehicle_event] ([DutyEventType]). *)
Inductive own_event_type := Taxi | SignOn.

Definition own_event_type_str (t : own_event_type) : string :=
  match t with Taxi => "taxi" | SignOn => "sign_on" end.

(** Vehicle event types other than [service_trip] ([VehicleEventType]). *)
Inductive non_trip_type := Attendance | Deadhead | DepotPullIn | DepotPullOut | PreTrip.

Definition non_trip_type_str (t : non_trip_type) : string :=
  match t with
  | Attendance => "attendance"
  | Deadhead => "deadhead"
  | DepotPullIn => "depot_pull_in"
  | DepotPullOut => "depot_pull_out"
  | PreTrip => "pre_trip"
  end.

(** The two [oneOf] branches of [VEHICLES_SCHEMA]. *)
Inductive vehicle_event_body :=
| VENonTrip (ty : non_trip_type) (start_time end_time origin_stop_id destination_stop_id : string)
| VETrip (trip_id : string).     (* vehicle_event_type = "service_trip" *)

Record vehicle_event := mk_vehicle_event {
  vehicle_event_sequence : pyval;  (* a string in the schema *)
  ve_duty_id : string;
  ve_body : vehicle_event_body }.

Record vehicle := mk_vehicle {
  vehicle_id : string;
  vehicle_events : list vehicle_event }.

(** The two [oneOf] branches of [DUTIES_SCHEMA] ([duty_event_sequence] is
    never read by the code and is left out). *)
Inductive duty_event :=
| DEVehicleEvent (vehicle_id : string) (vehicle_event_sequence : Z)
| DEOwn (ty : own_event_type) (start_time end_time origin_stop_id destination_stop_id : string).

Record duty := mk_duty {
  duty_id : string;
  duty_events : list duty_event }.

Record trip := mk_trip {
  trip_id : string;
  route_number : string;
  trip_origin_stop_id : string;
  trip_destination_stop_id : string;
  departure_time : string;
  arrival_time : string }.

(** [latitude] and [longitude] are never read and are left out. *)
Record stop := mk_stop {
  stop_id : string;
  stop_name : string;
  is_depot : bool }.

Record dataset := mk_dataset {
  duties : list duty;
  vehicles : list vehicle;
  trips : list trip;
  stops : list stop }.

(** [obj.get(<id field>)] for each collection. *)
Definition duty_key (d : duty) : option pyval := Some (PStr (duty_id d)).
Definition vehicle_key (v : vehicle) : option pyval := Some (PStr (vehicle_id v)).
Definition trip_key (t : trip) : option pyval := Some (PStr (trip_id t)).
Definition stop_key (s : stop) : option pyval := Some (PStr (stop_id s)).
Definition ve_seq_key (e : vehicle_event) : option pyval := Some (vehicle_event_sequence e).

(* ------------------------------------------------------------------ *)
(** ** Schema validation ([jsonschema.validate] against
       [DRIVERS_SCHEDULE_SCHEMA]); the shape of every record is already fixed
       by the Rocq types, what remains are the time patterns and the type of
       [vehicle_event_sequence]. *)

(** [re.search(r"^\d{1,2}\.\d{2}(:\d{2})?$", s)]; [$] also matches before a
    final newline. *)
Definition pattern_end (cs : list ascii) : bool :=
  match cs with
  | [] => true
  | [c] => Ascii.eqb c "010"%char
  | _ => false
  end.

Definition pattern_after_dot (cs : list ascii) : bool :=
  match cs with
  | h1 :: h2 :: r =>
      is_digit h1 && is_digit h2 &&
      (pattern_end r ||
       match r with
       | c :: m1 :: m2 :: r' => Ascii.eqb c ":" && is_digit m1 && is_digit m2 && pattern_end r'
       | _ => false
       end)
  | _ => false
  end.

Definition day_offset_pattern (s : string) : bool :=
  match list_ascii_of_string s with
  | d1 :: c :: r =>
      is_digit d1 &&
      ((Ascii.eqb c "." && pattern_after_dot r) ||
       (is_digit c && match r with
                      | c' :: r' => Ascii.eqb c' "." && pattern_after_dot r'
                      | [] => false
                      end))
  | _ => false
  end.

Definition duty_event_schema_ok (e : duty_event) : bool :=
  match e with
  | DEVehicleEvent _ _ => true
  | DEOwn _ s t _ _ => day_offset_pattern s && day_offset_pattern t
  end.

Definition vehicle_event_schema_ok (e : vehicle_event) : bool :=
  match vehicle_event_sequence e with
  | PStr _ =>
      match ve_body e with
      | VENonTrip _ s t _ _ => day_offset_pattern s && day_offset_pattern t
      | VETrip _ => true
      end
  | PInt _ => false
  end.

Definition schema_valid (ds : dataset) : bool :=
  forallb (fun d => forallb duty_event_schema_ok (duty_events d)) (duties ds) &&
  forallb (fun v => forallb vehicle_event_schema_ok (vehicle_events v)) (vehicles ds) &&
  forallb (fun t => day_offset_pattern (departure_time t) && day_offset_pattern (arrival_time t))
          (trips ds).

(* ------------------------------------------------------------------ *)
(** ** [_validate_json_data] *)

(** Distinct keys in first-occurrence order (the iteration order of a
    [Counter]). *)
Fixpoint dedup_seen (seen l : list string) : list string :=
  match l with
  | [] => []
  | x :: l' =>
      if existsb (String.eqb x) seen then dedup_seen seen l'
      else x :: dedup_seen (x :: seen) l'
  end.

Definition dedup_first (l : list string) : list string := dedup_seen [] l.

(** [len(set(items))] for a list of dicts: a dict is unhashable, so [set]
    raises [TypeError] on the first item. *)
Definition py_set_len_of_dicts {A} (items : list A) : result nat :=
  match items with
  | [] => Ok 0%nat
  | _ :: _ => Err TypeError
  end.

Fixpoint check_ids {A} (objs : list A) (id : A -> string) (ids : list string) : result unit :=
  match ids with
  | [] => Ok tt
  | id_ :: ids' =>
      let count := List.length (filter (fun o => String.eqb (id o) id_) objs) in
      if Nat.ltb 1 count then
        let items_with_same_id := filter (fun o => String.eqb (id o) id_) objs in
        n <- py_set_len_of_dicts items_with_same_id ;;
        if Nat.eqb n 1 then check_ids objs id ids' else Err AssertionError
      else check_ids objs id ids'
  end.

Definition check_unique_ids {A} (objs : list A) (id : A -> string) : result unit :=
  check_ids objs id (dedup_first (map id objs)).

Definition validate_json_data (ds : dataset) : result unit :=
  if schema_valid ds then
    _ <- check_unique_ids (duties ds) duty_id ;;
    _ <- check_unique_ids (vehicles ds) vehicle_id ;;
    _ <- check_unique_ids (trips ds) trip_id ;;
    check_unique_ids (stops ds) stop_id
  else Err ValidationError.

(* ------------------------------------------------------------------ *)
(** ** [list.sort(key=...)] (stable) and [_sort_all_raw_data_list] *)

(** Insertion of [x] in front of every element whose key is not smaller. *)
Fixpoint insert_by {A} (key : A -> string) (x : A) (l : list A) : list A :=
  match l with
  | [] => [x]
  | y :: l' => if str_ltb (key y) (key x) then y :: insert_by key x l' else x :: y :: l'
  end.

Fixpoint sort_by {A} (key : A -> string) (l : list A) : list A :=
  match l with
  | [] => []
  | x :: l' => insert_by key x (sort_by key l')
  end.

Definition sort_all_raw_data_list (ds : dataset) : dataset :=
  mk_dataset (sort_by duty_id (duties ds)) (sort_by vehicle_id (vehicles ds))
             (sort_by trip_id (trips ds)) (sort_by stop_id (stops ds)).

(* ------------------------------------------------------------------ *)
(** ** [_get_object_by_id] *)

(** [bisect_left(a, x, key=key)]: while [lo < hi], [mid = (lo + hi) // 2];
    [key(a[mid]) < x] moves [lo] to [mid + 1], otherwise [hi] to [mid].
    Each step shrinks [hi - lo], so [length a] rounds suffice. *)
Fixpoint bisect_go {A} (fuel : nat) (a : list A) (x : pyval) (key : A -> option pyval)
         (lo hi : nat) : result nat :=
  match fuel with
  | O => Ok lo
  | S fuel' =>
      if Nat.ltb lo hi then
        let mid := Nat.div (lo + hi) 2 in
        match nth_error a mid with
        | Some o =>
            b <- py_lt (key o) x ;;
            if b then bisect_go fuel' a x key (S mid) hi
            else bisect_go fuel' a x key lo mid
        | None => Ok lo
        end
      else Ok lo
  end.

Definition bisect_left {A} (a : list A) (x : pyval) (key : A -> option pyval) : result nat :=
  bisect_go (List.length a) a x key 0 (List.length a).

(** [ReportsExporter.fields_to_sort_by_id.values()] *)
Definition sorted_id_fields : list string := ["duty_id"; "vehicle_id"; "trip_id"; "stop_id"].

(** [_get_object_by_id(objects, object_id_key, id_, is_objects_sorted)]; the
    key field is read by [key] ([obj.get(object_id_key)]).  When the linear
    scan finds nothing, the code goes on with the binary search. *)
Definition get_object_by_id {A} (objects : list A) (object_id_key : string)
           (key : A -> option pyval) (id_ : pyval) (is_objects_sorted : option bool)
           : result A :=
  let is_sorted := match is_objects_sorted with
                   | Some b => b
                   | None => existsb (String.eqb object_id_key) sorted_id_fields
                   end in
  match (if is_sorted then None else find (fun o => py_eq (key o) id_) objects) with
  | Some o => Ok o
  | None =>
      idx <- bisect_left objects id_ key ;;
      match nth_error objects idx with
      | Some o => if py_eq (key o) id_ then Ok o else Err KeyError
      | None => Err KeyError
      end
  end.

(* ------------------------------------------------------------------ *)
(** ** [_get_vehicle_event_by_index] and [_get_duty_event_time] *)

(** The [SequenceMismatch] warning is a log line and is not modelled. *)
Definition get_vehicle_event_by_index (ds : dataset) (vid : string) (idx : Z)
  : result vehicle_event :=
  vehicle <- get_object_by_id (vehicles ds) "vehicle_id" vehicle_key (PStr vid) None ;;
  ve <- py_index (vehicle_events vehicle) idx ;;
  if String.eqb (py_str (vehicle_event_sequence ve)) (Z_to_string idx) then Ok ve
  else get_object_by_id (vehicle_events vehicle) "vehicle_event_sequence" ve_seq_key
         (PInt idx) (Some false).

Definition get_duty_event_time (ev : duty_event) (ds : dataset) (start_or_end : string)
  : result string :=
  let is_start := py_contains "start" (py_lower start_or_end) in
  match ev with
  | DEOwn _ s e _ _ => Ok (if is_start then s else e)
  | DEVehicleEvent vid idx =>
      ve <- get_vehicle_event_by_index ds vid idx ;;
      match ve_body ve with
      | VENonTrip _ s e _ _ => Ok (if is_start then s else e)
      | VETrip tid =>
          tr <- get_object_by_id (trips ds) "trip_id" trip_key (PStr tid) None ;;
          Ok (if is_start then departure_time tr else arrival_time tr)
      end
  end.

(* ------------------------------------------------------------------ *)
(** ** Step 1: [generate_duty_start_end_times_report] *)

Definition row1 : Type := (string * string * string)%type.

(** The body of the [try] block for one duty. *)
Definition duty_start_end_row (ds : dataset) (d : duty) : result row1 :=
  first <- py_index (duty_events d) 0 ;;
  st <- get_duty_event_time first ds "start" ;;
  last <- py_last (duty_events d) ;;
  en <- get_duty_event_time last ds "end" ;;
  s1 <- day_offset_to_simple_time st ;;
  s2 <- day_offset_to_simple_time en ;;
  Ok (duty_id d, s1, s2).

(** [except KeyError]: the duty is skipped; any other exception escapes. *)
Fixpoint start_end_rows (ds : dataset) (l : list duty) : result (list row1) :=
  match l with
  | [] => Ok []
  | d :: l' =>
      match duty_start_end_row ds d with
      | Ok r => rs <- start_end_rows ds l' ;; Ok (r :: rs)
      | Err KeyError => start_end_rows ds l'
      | Err e => Err e
      end
  end.

(** Returns the rows and [raw_data] as sorted in place, which the callers go
    on using. *)
Definition generate_duty_start_end_times_report (ds : dataset)
  : result (dataset * list row1) :=
  _ <- validate_json_data ds ;;
  let ds' := sort_all_raw_data_list ds in
  rows <- start_end_rows ds' (duties ds') ;;
  Ok (ds', rows).

(* ------------------------------------------------------------------ *)
(** ** Step 2: [generate_duty_start_end_times_and_stops_report] *)

(** A DataFrame cell: a string or a missing value. *)
Inductive cell := CStr (s : string) | CNaN.

Record row2 := mk_row2 {
  r_duty_id : string;
  r_start_time : string;
  r_end_time : string;
  r_start_stop : cell;
  r_end_stop : cell }.

Definition is_vehicle_event (e : duty_event) : bool :=
  match e with DEVehicleEvent _ _ => true | DEOwn _ _ _ _ _ => false end.

Definition duty_event_vehicle_id (e : duty_event) : string :=
  match e with DEVehicleEvent v _ => v | DEOwn _ _ _ _ _ => "" end.

Definition service_trip_of (did : string) (e : vehicle_event) : list string :=
  match ve_body e with
  | VETrip t => if String.eqb (ve_duty_id e) did then [t] else []
  | VENonTrip _ _ _ _ _ => []
  end.

Fixpoint get_relevant_service_trips (ds : dataset) (did : string) (vids : list string)
  : result (list string) :=
  match vids with
  | [] => Ok []
  | vid :: vids' =>
      v <- get_object_by_id (vehicles ds) "vehicle_id" vehicle_key (PStr vid) (Some true) ;;
      rest <- get_relevant_service_trips ds did vids' ;;
      Ok (app (flat_map (service_trip_of did) (vehicle_events v)) rest)
  end.

Definition get_stop_name_from_trip_id (ds : dataset) (tid : string) (origin_or_destination : string)
  : result string :=
  let use_origin := py_contains "origin" (py_lower origin_or_destination) in
  tr <- get_object_by_id (trips ds) "trip_id" trip_key (PStr tid) None ;;
  let sid := if use_origin then trip_origin_stop_id tr else trip_destination_stop_id tr in
  st <- get_object_by_id (stops ds) "stop_id" stop_key (PStr sid) None ;;
  Ok (stop_name st).

(** [_process_duty_start_and_end_stops] updates the row in place: the start
    description stays written when the end lookup raises. *)
Definition process_duty_start_and_end_stops (ds : dataset) (did : string) (r : row2)
  : row2 * result unit :=
  match (d <- get_object_by_id (duties ds) "duty_id" duty_key (PStr did) None ;;
         let vids := dedup_first (map duty_event_vehicle_id
                                      (filter is_vehicle_event (duty_events d))) in
         get_relevant_service_trips ds did vids) with
  | Err e => (r, Err e)
  | Ok [] => (r, Ok tt)
  | Ok (t0 :: ts) =>
      match get_stop_name_from_trip_id ds t0 "origin_stop_id" with
      | Err e => (r, Err e)
      | Ok s =>
          let r1 := mk_row2 (r_duty_id r) (r_start_time r) (r_end_time r) (CStr s) (r_end_stop r) in
          match (tl <- py_last (t0 :: ts) ;; get_stop_name_from_trip_id ds tl "destination_stop_id") with
          | Err e => (r1, Err e)
          | Ok s' => (mk_row2 (r_duty_id r1) (r_start_time r1) (r_end_time r1) (r_start_stop r1) (CStr s'), Ok tt)
          end
      end
  end.

Fixpoint stops_rows (ds : dataset) (rs : list row2) : result (list row2) :=
  match rs with
  | [] => Ok []
  | r :: rs' =>
      let '(r', res) := process_duty_start_and_end_stops ds (r_duty_id r) r in
      match res with
      | Ok _ | Err KeyError => rest <- stops_rows ds rs' ;; Ok (r' :: rest)
      | Err e => Err e
      end
  end.

Definition is_nan (c : cell) : bool := match c with CNaN => true | CStr _ => false end.

(** [report.dropna(subset=[...], how="any")] *)
Definition dropna (rs : list row2) : list row2 :=
  filter (fun r => negb (is_nan (r_start_stop r) || is_nan (r_end_stop r))) rs.

Definition generate_duty_start_end_times_and_stops_report (ds : dataset)
  : result (dataset * list row2) :=
  res <- generate_duty_start_end_times_report ds ;;
  let '(ds', rows) := res in
  let report := map (fun '(did, s, e) => mk_row2 did s e (CStr "") (CStr "")) rows in
  report' <- stops_rows ds' report ;;
  Ok (ds', dropna report').

(* ------------------------------------------------------------------ *)
(** ** Step 3: [_populate_duty_events_with_details] and [_calculate_breaks] *)

(** A deep copy of a duty event augmented with its resolved fields. *)
Record resolved_event := mk_resolved {
  ev_start_time : string;
  ev_end_time : string;
  ev_origin_stop_id : string;
  ev_destination_stop_id : string;
  is_break_type : bool }.

Definition in_tags (tags : list string) (t : string) : bool :=
  existsb (String.eqb t) tags.

Definition populate_duty_event (ds : dataset) (tags : list string) (ev : duty_event)
  : result resolved_event :=
  match ev with
  | DEOwn ty s e o d => Ok (mk_resolved s e o d (in_tags tags (own_event_type_str ty)))
  | DEVehicleEvent vid idx =>
      ve <- get_vehicle_event_by_index ds vid idx ;;
      match ve_body ve with
      | VENonTrip ty s e o d => Ok (mk_resolved s e o d (in_tags tags (non_trip_type_str ty)))
      | VETrip tid =>
          tr <- get_object_by_id (trips ds) "trip_id" trip_key (PStr tid) None ;;
          Ok (mk_resolved (departure_time tr) (arrival_time tr)
                          (trip_origin_stop_id tr) (trip_destination_stop_id tr) false)
      end
  end.

Definition populate_duty_events_with_details (ds : dataset) (did : string) (tags : list string)
  : result (list resolved_event) :=
  d <- get_object_by_id (duties ds) "duty_id" duty_key (PStr did) None ;;
  map_r (populate_duty_event ds tags) (duty_events d).

(** A raw break [(start_time, duration, stop id)]. *)
Definition raw_break : Type := (string * Z * string)%type.

Definition break_start (b : raw_break) : string := fst (fst b).
Definition break_duration (b : raw_break) : Z := snd (fst b).
Definition break_location (b : raw_break) : string := snd b.

Definition explicit_breaks (evs : list resolved_event) : result (list raw_break) :=
  map_r (fun ev => d <- calculate_duration_in_minutes (ev_start_time ev) (ev_end_time ev) ;;
                   Ok (ev_start_time ev, d, ev_destination_stop_id ev))
        (filter is_break_type evs).

(** The loop [for i in range(1, len(duty_events))] over adjacent pairs. *)
Fixpoint implicit_breaks_from (prev : resolved_event) (rest : list resolved_event)
  : result (list raw_break) :=
  match rest with
  | [] => Ok []
  | curr :: rest' =>
      if String.eqb (ev_end_time prev) (ev_start_time curr) then implicit_breaks_from curr rest'
      else
        d <- calculate_duration_in_minutes (ev_end_time prev) (ev_start_time curr) ;;
        bs <- implicit_breaks_from curr rest' ;;
        Ok ((ev_end_time prev, d, ev_destination_stop_id prev) :: bs)
  end.

Definition implicit_breaks (evs : list resolved_event) : result (list raw_break) :=
  match evs with
  | [] => Ok []
  | e :: rest => implicit_breaks_from e rest
  end.

(** The nested [_transform_raw_breaks]: the filter runs before the tuple is
    built, so only kept breaks have their stop looked up. *)
Definition transform_raw_breaks (ds : dataset) (min_duration_mins : Z) (raw : list raw_break)
  : result (list (string * Z * string)) :=
  map_r (fun b => s <- day_offset_to_simple_time (break_start b) ;;
                  st <- get_object_by_id (stops ds) "stop_id" stop_key (PStr (break_location b)) None ;;
                  Ok (s, break_duration b, stop_name st))
        (filter (fun b => Z.leb min_duration_mins (break_duration b)) raw).

Definition calculate_breaks (ds : dataset) (did : string) (min_duration_mins : Z)
           (tags : list string) : result (list (string * Z * string)) :=
  evs <- populate_duty_events_with_details ds did tags ;;
  ex <- explicit_breaks evs ;;
  im <- implicit_breaks evs ;;
  transform_raw_breaks ds min_duration_mins (sort_by break_start (app ex im)).

(* ------------------------------------------------------------------ *)
(** ** Step 3: [generate_duty_breaks_report] *)

(** A row of the breaks report: the row of the location-aware report with
    the columns ["Break start time"], ["Break duration"] and
    ["Break stop name"] appended. *)
Definition row3 : Type := (row2 * (string * Z * string))%type.

(** The loop over [unique_duty_ids_report["Duty Id"].items()]: a [KeyError]
    of [_calculate_breaks] gives [breaks = []]; any other exception escapes.
    One row is appended per break, in the order of the breaks. *)
Fixpoint breaks_rows (ds : dataset) (min_duration_mins : Z) (tags : list string)
         (rows : list row2) : result (list row3) :=
  match rows with
  | [] => Ok []
  | r :: rows' =>
      breaks <- match calculate_breaks ds (r_duty_id r) min_duration_mins tags with
                | Ok bs => Ok bs
                | Err KeyError => Ok []
                | Err e => Err e
                end ;;
      rest <- breaks_rows ds min_duration_mins tags rows' ;;
      Ok (app (map (fun b => (r, b)) breaks) rest)
  end.

(** [raw_data] reaches [_calculate_breaks] as sorted in place by the
    location-aware report. *)
Definition generate_duty_breaks_report (ds : dataset) (min_duration_mins : Z)
           (explicit_break_event_types : list string) : result (list row3) :=
  res <- generate_duty_start_end_times_and_stops_report ds ;;
  let '(ds', rows) := res in
  breaks_rows ds' min_duration_mins explicit_break_event_types rows.

(* ------------------------------------------------------------------ *)
(** ** [export_report_by_type] *)

(** [s.endswith(suffix)] *)
Definition py_endswith (suffix s : string) : bool :=
  let cs := list_ascii_of_string s in
  Nat.leb (String.length suffix) (List.length cs) &&
  String.eqb (string_of_list_ascii (skipn (List.length cs - String.length suffix) cs)) suffix.

Inductive report :=
| Report1 (rows : list row1)
| Report2 (rows : list row2)
| Report3 (rows : list row3).

(** [report.to_csv(path, index=False, sep=...)] or [report.to_excel(path, index=False)]. *)
Inductive writer := ToCsv (sep : string) | ToExcel.

(** The first [match] of [export_report_by_type]; [ReportTypes] is a
    [StrEnum], so its members compare equal to their values. The keyword
    arguments reach only the breaks report; their defaults there are [16]
    and [()]. *)
Definition generate_report_by_type (ds : dataset) (report_type : string)
           (min_duration_mins : Z) (explicit_break_event_types : list string)
  : result report :=
  if String.eqb report_type "duty_start_end_times" then
    res <- generate_duty_start_end_times_report ds ;; Ok (Report1 (snd res))
  else if String.eqb report_type "duty_start_end_times_and_stops" then
    res <- generate_duty_start_end_times_and_stops_report ds ;; Ok (Report2 (snd res))
  else if String.eqb report_type "duty_breaks" then
    rows <- generate_duty_breaks_report ds min_duration_mins explicit_break_event_types ;;
    Ok (Report3 rows)
  else Err ValueError.

(** [export_report_by_type] after [load(f)] has produced [ds]: the report,
    the path it is saved to and how it is written. The write itself
    ([to_csv], [to_excel]) is not modelled: its own failures (a missing
    directory, a missing Excel engine) do not appear here. *)
Definition export_report_by_type (ds : dataset) (report_type save_file_path output_format : string)
           (min_duration_mins : Z) (explicit_break_event_types : list string)
  : result (string * writer * report) :=
  rep <- generate_report_by_type ds report_type min_duration_mins explicit_break_event_types ;;
  let save_file_path :=
    if py_endswith ("." ++ output_format) save_file_path then save_file_path
    else save_file_path ++ "." ++ output_format in
  if String.eqb output_format "csv" then Ok (save_file_path, ToCsv ",", rep)
  else if String.eqb output_format "xlsx" then Ok (save_file_path, ToExcel, rep)
  else if String.eqb output_format "txt" then Ok (save_file_path, ToCsv (String "009" ""), rep)
  else Err ValueError.

(* ------------------------------------------------------------------ *)
(** ** Well-formed day-offset strings, as used in the statements *)

(** The ASCII digit of value [n]. *)
Definition digit (n : nat) : ascii := ascii_of_nat (48 + n).

(** The value of a token of decimal digits. *)
Definition tok_val (ds : list nat) : Z :=
  fold_left (fun acc n => 10 * acc + Z.of_nat n) ds 0.

(** ["<day>.<h1><h2>:<m1><m2>"] *)
Definition time_str (day : list nat) (h1 h2 m1 m2 : nat) : string :=
  string_of_list_ascii (map digit day ++ ["."%char; digit h1; digit h2; ":"%char; digit m1; digit m2]).

(** Day offset, hours and minutes of [time_str] as a minute count. *)
Definition time_str_minutes (day : list nat) (h1 h2 m1 m2 : nat) : Z :=
  tok_val day * 1440 + Z.of_nat (10 * h1 + h2) * 60 + Z.of_nat (10 * m1 + m2).

Definition well_formed_time (day : list nat) (h1 h2 m1 m2 : nat) : Prop :=
  (1 <= List.length day <= 2)%nat /\ Forall (fun n : nat => (n < 10)%nat) day /\
  (h1 < 10)%nat /\ (h2 < 10)%nat /\ (m1 < 10)%nat /\ (m2 < 10)%nat /\
  (10 * h1 + h2 <= 23)%nat /\ (10 * m1 + m2 <= 59)%nat.

(** Adjacent pairs [(l[i-1], l[i])] of a list, in order. *)
Fixpoint adjacent_pairs {A} (l : list A) : list (A * A) :=
  match l with
  | x :: ((y :: _) as t) => (x, y) :: adjacent_pairs t
  | _ => []
  end.

Definition implicit_break_of (p : resolved_event * resolved_event) : result raw_break :=
  d <- calculate_duration_in_minutes (ev_end_time (fst p)) (ev_start_time (snd p)) ;;
  Ok (ev_end_time (fst p), d, ev_destination_stop_id (fst p)).

Definition has_gap (p : resolved_event * resolved_event) : bool :=
  negb (String.eqb (ev_end_time (fst p)) (ev_start_time (snd p))).

(** One argument of [calculate_duration_in_minutes] converted to the
    [datetime] it is compared through. *)
Definition parse_day_offset_time (s : string) : result datetime :=
  match py_split "." s with
  | [d; t] => n <- py_int d ;; strptime_dHM (Z_to_string (n + 1) ++ "." ++ t)
  | _ => Err ValueError
  end.

(** ["<day>.<h1><h2>"]: the optional minutes of the schema pattern left out. *)
Definition hour_only_str (day : list nat) (h1 h2 : nat) : string :=
  string_of_list_ascii (map digit day ++ ["."%char; digit h1; digit h2]).

Definition no_dot (s : string) : bool :=
  forallb (fun c => negb (Ascii.eqb c ".")) (list_ascii_of_string s).

(** [l] is in ascending order of [f] under Python's string order. *)
Definition id_sorted {A} (f : A -> string) (l : list A) : Prop :=
  Sorted (fun a b => str_ltb (f b) (f a) = false) l.

(** [l'] is [l] sorted by [f] with a stable sort: the same records, in
    ascending order, records with equal keys in their original order. *)
Definition stable_sorted_copy {A} (f : A -> string) (l' l : list A) : Prop :=
  Permutation l' l /\ id_sorted f l' /\
  forall s, filter (fun o => String.eqb (f o) s) l' = filter (fun o => String.eqb (f o) s) l.

(** The first object of [objs] whose id is [x], as a lookup result. *)
Definition first_with_id {A} (f : A -> string) (objs : list A) (x : string) : result A :=
  match find (fun o => String.eqb (f o) x) objs with
  | Some o => Ok o
  | None => Err KeyError
  end.

(** The values of [AvaliableFormats]. *)
Definition known_output_format (output_format : string) : bool :=
  String.eqb output_format "csv" || String.eqb output_format "xlsx" ||
  String.eqb output_format "txt".

(** The break duration column of a row of the breaks report. *)
Definition row3_duration (r : row3) : Z := snd (fst (snd r)).

(* ------------------------------------------------------------------ *)
(** ** Concrete inputs used by the witnesses and counterexamples *)

Definition c1_vehicle : vehicle :=
  mk_vehicle "1"
    [mk_vehicle_event (PStr "1") "7" (VENonTrip Attendance "0.08:30" "0.09:00" "s1" "s2");
     mk_vehicle_event (PStr "0") "7" (VENonTrip PreTrip "0.08:00" "0.08:30" "s1" "s1")].

Definition c1_dataset : dataset := mk_dataset [] [c1_vehicle] [] [].

Definition c4_event : vehicle_event := mk_vehicle_event (PStr "0") "1" (VETrip "1").

(** The data of the [_get_duty_event_time] docstring. *)
Definition c4_dataset : dataset :=
  mk_dataset
    [mk_duty "1" [DEOwn SignOn "0.08:00" "0.08:30" "s1" "s1"; DEVehicleEvent "1" 0]]
    [mk_vehicle "1" [c4_event]]
    [mk_trip "1" "r1" "s1" "s2" "0.08:30" "0.09:00"]
    [].

Definition sign_on_duty (did start end_ : string) : duty :=
  mk_duty did [DEOwn SignOn start end_ "s1" "s1"].

(** One duty without events next to a valid one. *)
Definition c10_dataset : dataset :=
  mk_dataset [mk_duty "2" []; sign_on_duty "1" "0.07:00" "0.07:10"] [] [] [].

(** A duty whose first event names the missing vehicle ["99"] next to a
    valid one. *)
Definition c7_bad : duty := mk_duty "1" [DEVehicleEvent "99" 0].
Definition c7_good : duty := sign_on_duty "2" "0.07:00" "0.07:10".
Definition c7_dataset : dataset := mk_dataset [c7_bad; c7_good] [] [] [].



(** A duty whose [start_time] lacks the colon next to a valid one. *)
Definition c6_dataset : dataset :=
  mk_dataset [sign_on_duty "1" "0.1000" "0.10:30"; sign_on_duty "2" "0.07:00" "0.07:10"] [] [] [].

(** Two identical duty records. *)
Definition c8_duty : duty := sign_on_duty "1" "0.07:00" "0.07:10".
Definition c8_dataset : dataset := mk_dataset [c8_duty; c8_duty] [] [] [].

(** Two records of a collection sharing an id. *)
Definition shares_id {A} (id : A -> string) (l : list A) : Prop :=
  exists l1 x l2 y l3, l = app l1 (x :: app l2 (y :: l3)) /\ id x = id y.

(** A duty made only of a sign-on event: it has no service trip. *)
Definition c9_dataset : dataset := mk_dataset [sign_on_duty "1" "0.07:00" "0.07:10"] [] [] [].

Definition row1_duty_id (r : row1) : string := let '(did, _, _) := r in did.

Definition no_nan (r : row2) : bool :=
  negb (is_nan (r_start_stop r) || is_nan (r_end_stop r)).

(** A duty with sign-on breaks on day offsets 9 and 10. *)
Definition c2_duty : duty :=
  mk_duty "d0" [DEOwn SignOn "9.22:00" "9.23:00" "s1" "s1";
                DEOwn SignOn "10.01:00" "10.02:00" "s1" "s2"].

Definition c2_dataset : dataset :=
  mk_dataset [c2_duty] [] [] [mk_stop "s1" "Stop 1" false; mk_stop "s2" "Stop 2" false].

(** [a] starts no later than [b], comparing start strings as Python does. *)
Definition break_le (a b : raw_break) : Prop :=
  str_ltb (break_start b) (break_start a) = false.



(** A sign-on whose [start_time] has no minutes, as the schema allows. *)
Definition hour_only_dataset : dataset :=
  mk_dataset [sign_on_duty "1" "0.10" "0.11:00"] [] [] [].

(* ================================================================== *)
(** * Properties *)
Example duration_ex1 : calculate_duration_in_minutes "0.23:59" "1.00:00" = Ok 1.
Proof. reflexivity. Qed.
Example duration_ex2 : calculate_duration_in_minutes "0.12:00" "0.14:00" = Ok 120.
Proof. reflexivity. Qed.
Example duration_ex3 : calculate_duration_in_minutes "0.00:00" "1.23:59" = Ok 2879.
Proof. reflexivity. Qed.
Example duration_ex4 : calculate_duration_in_minutes "30.23:59" "31.00:00" = Err ValueError.
Proof. reflexivity. Qed.
Example duration_ex5 : calculate_duration_in_minutes "0.10" "0.11:00" = Err ValueError.
Proof. reflexivity. Qed.
Example duration_ex6 : calculate_duration_in_minutes "0.10:00" "0.09:30" = Ok (-30).
Proof. reflexivity. Qed.

(* ------------------------------------------------------------------ *)
(** ** Time arithmetic *)

Lemma nat_of_digit (n : nat) : (n < 10)%nat -> nat_of_ascii (digit n) = (48 + n)%nat.
Proof. intros H. unfold digit. apply nat_ascii_embedding. lia. Qed.

Lemma digit_val_digit (n : nat) : (n < 10)%nat -> digit_val (digit n) = Z.of_nat n.
Proof.
  intros H. unfold digit_val. rewrite nat_of_digit by exact H. f_equal. lia.
Qed.

Lemma is_digit_digit (n : nat) : (n < 10)%nat -> is_digit (digit n) = true.
Proof.
  intros H. unfold is_digit. rewrite nat_of_digit by exact H.
  apply andb_true_intro; split; apply Nat.leb_le; lia.
Qed.

Lemma digit_not_dot (n : nat) : (n < 10)%nat -> Ascii.eqb (digit n) "." = false.
Proof.
  intros H. apply Ascii.eqb_neq. intros E.
  apply (f_equal nat_of_ascii) in E. rewrite nat_of_digit in E by exact H.
  cbn in E. lia.
Qed.

Lemma list_ascii_of_string_app (s1 s2 : string) :
  list_ascii_of_string (s1 ++ s2) = app (list_ascii_of_string s1) (list_ascii_of_string s2).
Proof. induction s1 as [|c s1 IH]; cbn; [reflexivity | now rewrite IH]. Qed.

Lemma orelse_none_r {X} (a : option X) : orelse X a None = a.
Proof. now destruct a. Qed.

Lemma py_split_no_sep (sep : ascii) (cs : list ascii) :
  forallb (fun c => negb (Ascii.eqb c sep)) cs = true ->
  py_split sep (string_of_list_ascii cs) = [string_of_list_ascii cs].
Proof.
  induction cs as [|c cs IH]; intros H; cbn in *; [reflexivity|].
  apply andb_prop in H as [H1 H2]. apply negb_true_iff in H1.
  rewrite H1, IH by exact H2. reflexivity.
Qed.

Lemma py_split_app_sep (sep : ascii) (cs rest : list ascii) :
  forallb (fun c => negb (Ascii.eqb c sep)) cs = true ->
  py_split sep (string_of_list_ascii (app cs (sep :: rest))) =
  string_of_list_ascii cs :: py_split sep (string_of_list_ascii rest).
Proof.
  induction cs as [|c cs IH]; intros H; cbn in *.
  - now rewrite Ascii.eqb_refl.
  - apply andb_prop in H as [H1 H2]. apply negb_true_iff in H1.
    rewrite H1, IH by exact H2. reflexivity.
Qed.

(** The [%d] matcher on [str(v)] followed by the dot. *)
Lemma match_d_day (v : Z) :
  1 <= v <= 31 ->
  forall X (K : Z -> list ascii -> option X) rest,
    match_d (fun d => match_lit "." (K d)) (app (list_ascii_of_string (Z_to_string v)) ("."%char :: rest))
    = K v rest.
Proof.
  intros Hv X K rest.
  assert (Hn : exists n, v = Z.of_nat n /\ (1 <= n <= 31)%nat) by (exists (Z.to_nat v); lia).
  destruct Hn as [n [-> Hn]].
  do 32 (destruct n as [|n]; [try lia; vm_compute; try destruct (K _ rest); reflexivity|]).
  lia.
Qed.

(** The [%H] matcher on two digits followed by the colon. *)
Lemma match_H_two (h1 h2 : nat) :
  (h1 < 10)%nat -> (h2 < 10)%nat -> (10 * h1 + h2 <= 23)%nat ->
  forall X (K : Z -> list ascii -> option X) rest,
    match_H (fun h => match_lit ":" (K h)) (digit h1 :: digit h2 :: ":"%char :: rest)
    = K (Z.of_nat (10 * h1 + h2)) rest.
Proof.
  intros H1 H2 H X K rest.
  do 3 (destruct h1 as [|h1];
        [do 10 (destruct h2 as [|h2]; [try lia; vm_compute; try destruct (K _ rest); reflexivity|]); lia|]).
  lia.
Qed.

(** The [%M] matcher on two digits: its first alternative succeeds. *)
Lemma match_M_two (m1 m2 : nat) :
  (m1 < 10)%nat -> (m2 < 10)%nat -> (10 * m1 + m2 <= 59)%nat ->
  forall X (K : Z -> list ascii -> option X) rest y,
    K (Z.of_nat (10 * m1 + m2)) rest = Some y ->
    match_M K (digit m1 :: digit m2 :: rest) = Some y.
Proof.
  intros H1 H2 H X K rest y HK. unfold match_M, in_range.
  rewrite nat_of_digit by exact H1. rewrite is_digit_digit by exact H2.
  replace (Nat.leb 48 (48 + m1) && Nat.leb (48 + m1) 53) with true
    by (symmetry; apply andb_true_intro; split; apply Nat.leb_le; lia).
  rewrite !digit_val_digit by assumption.
  replace (10 * Z.of_nat m1 + Z.of_nat m2) with (Z.of_nat (10 * m1 + m2)) by lia.
  cbn [andb]. now rewrite HK.
Qed.

Lemma strptime_dHM_ok (v : Z) (h1 h2 m1 m2 : nat) :
  1 <= v <= 31 -> (h1 < 10)%nat -> (h2 < 10)%nat -> (m1 < 10)%nat -> (m2 < 10)%nat ->
  (10 * h1 + h2 <= 23)%nat -> (10 * m1 + m2 <= 59)%nat ->
  strptime_dHM (Z_to_string v ++ "." ++
                string_of_list_ascii [digit h1; digit h2; ":"%char; digit m1; digit m2])
  = Ok (mk_datetime v (Z.of_nat (10 * h1 + h2)) (Z.of_nat (10 * m1 + m2))).
Proof.
  intros Hv Hh1 Hh2 Hm1 Hm2 Hh Hm. unfold strptime_dHM.
  rewrite list_ascii_of_string_app. cbn [list_ascii_of_string String.append].
  rewrite list_ascii_of_string_of_list_ascii.
  rewrite match_d_day by exact Hv.
  rewrite match_H_two by assumption.
  erewrite match_M_two by (try assumption; reflexivity).
  reflexivity.
Qed.

Lemma py_int_day_token (day : list nat) :
  (1 <= List.length day <= 2)%nat -> Forall (fun n : nat => (n < 10)%nat) day ->
  py_int (string_of_list_ascii (map digit day)) = Ok (tok_val day) /\ 0 <= tok_val day.
Proof.
  intros Hl Hd.
  destruct day as [|a [|b [|c r]]]; cbn [List.length] in Hl; try lia.
  - inversion Hd as [|? ? Ha _]; subst.
    split; [|unfold tok_val; cbn [fold_left]; lia].
    do 10 (destruct a as [|a]; [vm_compute; reflexivity|]); lia.
  - inversion Hd as [|? ? Ha Hd']; subst. inversion Hd' as [|? ? Hb _]; subst.
    split; [|unfold tok_val; cbn [fold_left]; lia].
    do 10 (destruct a as [|a];
           [do 10 (destruct b as [|b]; [vm_compute; reflexivity|]); lia|]); lia.
Qed.

Lemma py_split_time_str (day : list nat) (h1 h2 m1 m2 : nat) :
  well_formed_time day h1 h2 m1 m2 ->
  py_split "." (time_str day h1 h2 m1 m2) =
  [string_of_list_ascii (map digit day);
   string_of_list_ascii [digit h1; digit h2; ":"%char; digit m1; digit m2]].
Proof.
  intros (Hl & Hd & Hh1 & Hh2 & Hm1 & Hm2 & _).
  unfold time_str. rewrite py_split_app_sep.
  - rewrite py_split_no_sep; [reflexivity|].
    cbn [forallb]. rewrite !digit_not_dot by assumption. reflexivity.
  - clear Hl. induction Hd as [|n l Hn _ IH]; [reflexivity|].
    cbn [map forallb]. rewrite digit_not_dot by exact Hn. exact IH.
Qed.

(** For well-formed day-offset strings ["<ds>.<hh>:<mm>"] (a
    day of one or two digits, two-digit hours up to 23 and minutes up to 59)
    whose day offsets are at most 30, [calculate_duration_in_minutes] returns
    the difference of the minute counts [day * 1440 + hh * 60 + mm]; in
    particular 1 for ["0.23:59"], ["1.00:00"] and 2879 for ["0.00:00"],
    ["1.23:59"]. *)
Theorem calculate_duration_in_minutes_formula
  (sd ed : list nat) (sh1 sh2 sm1 sm2 eh1 eh2 em1 em2 : nat) :
  well_formed_time sd sh1 sh2 sm1 sm2 -> well_formed_time ed eh1 eh2 em1 em2 ->
  tok_val sd <= 30 -> tok_val ed <= 30 ->
  calculate_duration_in_minutes (time_str sd sh1 sh2 sm1 sm2) (time_str ed eh1 eh2 em1 em2)
  = Ok (time_str_minutes ed eh1 eh2 em1 em2 - time_str_minutes sd sh1 sh2 sm1 sm2) /\
  calculate_duration_in_minutes "0.23:59" "1.00:00" = Ok 1 /\
  calculate_duration_in_minutes "0.00:00" "1.23:59" = Ok 2879.
Proof.
  intros Hs He Hsd Hed.
  split; [|split; reflexivity].
  unfold calculate_duration_in_minutes.
  rewrite (py_split_time_str _ _ _ _ _ Hs), (py_split_time_str _ _ _ _ _ He).
  destruct Hs as (Hsl & Hsdg & Hs1 & Hs2 & Hs3 & Hs4 & Hsh & Hsm).
  destruct He as (Hel & Hedg & He1 & He2 & He3 & He4 & Heh & Hem).
  destruct (py_int_day_token sd Hsl Hsdg) as [Hps Hs0].
  destruct (py_int_day_token ed Hel Hedg) as [Hpe He0].
  rewrite Hps. cbn [bind]. rewrite Hpe. cbn [bind].
  rewrite strptime_dHM_ok by (try assumption; lia). cbn [bind].
  rewrite strptime_dHM_ok by (try assumption; lia). cbn [bind].
  f_equal. unfold dt_seconds, time_str_minutes. cbn [dt_day dt_hour dt_minute].
  rewrite <- Z.mul_sub_distr_r, Z.div_mul by lia. lia.
Qed.

Lemma calculate_duration_in_minutes_formula_witness :
  calculate_duration_in_minutes (time_str [0]%nat 2 3 5 9) (time_str [1]%nat 0 0 0 0)
  = Ok (time_str_minutes [1]%nat 0 0 0 0 - time_str_minutes [0]%nat 2 3 5 9) /\
  calculate_duration_in_minutes "0.23:59" "1.00:00" = Ok 1 /\
  calculate_duration_in_minutes "0.00:00" "1.23:59" = Ok 2879.
Proof.
  apply calculate_duration_in_minutes_formula;
    try (unfold well_formed_time; repeat split; try (repeat constructor; lia); lia);
    vm_compute; discriminate.
Defined.

(* ------------------------------------------------------------------ *)
(** ** Lookup by id *)

Lemma bisect_go_str {A} (fuel : nat) (a : list A) (x : string) (key : A -> option pyval) :
  (forall o, In o a -> exists s, key o = Some (PStr s)) ->
  forall lo hi, exists n, bisect_go fuel a (PStr x) key lo hi = Ok n.
Proof.
  intros Hk. induction fuel as [|fuel IH]; intros lo hi; cbn [bisect_go]; [eauto|].
  destruct (Nat.ltb lo hi); [|eauto].
  destruct (nth_error a _) as [o|] eqn:E; [|eauto].
  destruct (Hk o (nth_error_In _ _ E)) as [s Hs]. rewrite Hs. cbn [py_lt bind].
  destruct (str_ltb s x); apply IH.
Qed.

Lemma get_object_by_id_sound {A} (objs : list A) (k : string) (key : A -> option pyval)
      (id_ : pyval) (s : option bool) (o : A) :
  get_object_by_id objs k key id_ s = Ok o -> In o objs /\ py_eq (key o) id_ = true.
Proof.
  unfold get_object_by_id. cbv zeta.
  destruct (match s with Some b => b | None => _ end);
    [|destruct (find (fun o => py_eq (key o) id_) objs) as [o'|] eqn:F;
      [intros [= <-]; now apply find_some in F|]];
  destruct (bisect_left objs id_ key) as [n|e]; cbn [bind]; try discriminate;
    destruct (nth_error objs n) as [o'|] eqn:N; try discriminate;
    destruct (py_eq (key o') id_) eqn:Q; try discriminate;
    intros [= <-]; split; [exact (nth_error_In _ _ N) | exact Q | exact (nth_error_In _ _ N) | exact Q].
Qed.

(** An id that no object carries is reported by [KeyError] when every id is
    a string. *)
Lemma get_object_by_id_absent {A} (objs : list A) (k : string) (key : A -> option pyval)
      (x : string) (s : option bool) :
  (forall o, In o objs -> exists s', key o = Some (PStr s')) ->
  (forall o, In o objs -> py_eq (key o) (PStr x) = false) ->
  get_object_by_id objs k key (PStr x) s = Err KeyError.
Proof.
  intros Hk Hn. unfold get_object_by_id. cbv zeta.
  destruct (match s with Some b => b | None => _ end);
    [|destruct (find (fun o => py_eq (key o) (PStr x)) objs) as [o'|] eqn:F;
      [apply find_some in F as [F1 F2]; rewrite Hn in F2 by exact F1; discriminate|]];
  unfold bisect_left; destruct (bisect_go_str (List.length objs) objs x key Hk 0 (List.length objs))
      as [n Hb]; rewrite Hb; cbn [bind];
    (destruct (nth_error objs n) as [o'|] eqn:N; [|reflexivity]);
    rewrite Hn by exact (nth_error_In _ _ N); reflexivity.
Qed.

(** The label search of [_get_vehicle_event_by_index]: an integer index
    never equals a string label, and the binary search that follows compares
    a string with an integer. *)
Lemma bisect_left_str_int {A} (a : list A) (i : Z) (key : A -> option pyval) :
  a <> [] -> (forall o, In o a -> exists s, key o = Some (PStr s)) ->
  bisect_left a (PInt i) key = Err TypeError.
Proof.
  intros Hne Hk. unfold bisect_left.
  destruct a as [|a0 a']; [congruence|]. cbn [List.length bisect_go].
  rewrite (proj2 (Nat.ltb_lt 0 (S (List.length a'))) ltac:(lia)).
  destruct (nth_error (a0 :: a') (Nat.div (0 + S (List.length a')) 2)) as [o|] eqn:E.
  - destruct (Hk o (nth_error_In _ _ E)) as [s Hs]. rewrite Hs. reflexivity.
  - exfalso. apply nth_error_None in E. cbn [List.length] in E.
    assert (Nat.div (S (List.length a')) 2 < S (List.length a'))%nat
      by (apply Nat.div_lt; lia). cbn in *. lia.
Qed.

(* ------------------------------------------------------------------ *)
(** ** C1: the sequence-label fallback of [_get_vehicle_event_by_index] *)

(** C1: for a vehicle whose labels are strings, as [VEHICLES_SCHEMA]
    requires, and an index whose positional event carries another label,
    [_get_vehicle_event_by_index] never returns the event labelled with the
    index: the fallback compares the integer index with string labels, finds
    nothing, and its binary search raises [TypeError]. *)
Theorem get_vehicle_event_by_index_mismatch_raises (ds : dataset) (vid : string) (idx : Z)
        (v : vehicle) (ve : vehicle_event) :
  get_object_by_id (vehicles ds) "vehicle_id" vehicle_key (PStr vid) None = Ok v ->
  (forall e, In e (vehicle_events v) -> exists s, vehicle_event_sequence e = PStr s) ->
  py_index (vehicle_events v) idx = Ok ve ->
  py_str (vehicle_event_sequence ve) <> Z_to_string idx ->
  get_vehicle_event_by_index ds vid idx = Err TypeError.
Proof.
  intros Hv Hs Hi Hm. unfold get_vehicle_event_by_index.
  rewrite Hv. cbn [bind]. rewrite Hi. cbn [bind].
  apply String.eqb_neq in Hm. rewrite Hm.
  unfold get_object_by_id. cbv zeta. cbn [negb].
  destruct (find (fun o => py_eq (ve_seq_key o) (PInt idx)) (vehicle_events v)) as [o|] eqn:F.
  - apply find_some in F as [F1 F2]. destruct (Hs o F1) as [s Es].
    unfold ve_seq_key in F2. rewrite Es in F2. discriminate.
  - rewrite bisect_left_str_int; [reflexivity| |].
    + intros E. rewrite E in Hi. unfold py_index in Hi.
      destruct (Z.ltb _ 0); [discriminate|]. destruct (Z.to_nat _); discriminate.
    + intros o Ho. destruct (Hs o Ho) as [s Es]. exists s. unfold ve_seq_key. now rewrite Es.
Qed.

Lemma get_vehicle_event_by_index_mismatch_raises_witness :
  get_vehicle_event_by_index c1_dataset "1" 0 = Err TypeError.
Proof.
  apply (get_vehicle_event_by_index_mismatch_raises c1_dataset "1" 0 c1_vehicle
           (mk_vehicle_event (PStr "1") "7" (VENonTrip Attendance "0.08:30" "0.09:00" "s1" "s2"))).
  - reflexivity.
  - intros e He. destruct He as [<-|[<-|[]]]; eexists; reflexivity.
  - reflexivity.
  - vm_compute. discriminate.
Defined.

(* ------------------------------------------------------------------ *)
(** ** C3: implicit breaks *)


Lemma implicit_breaks_from_pairs (prev : resolved_event) (rest : list resolved_event) :
  implicit_breaks_from prev rest =
  map_r implicit_break_of (filter has_gap (adjacent_pairs (prev :: rest))).
Proof.
  revert prev. induction rest as [|curr rest IH]; intros prev; [reflexivity|].
  cbn [implicit_breaks_from adjacent_pairs filter].
  unfold has_gap at 1. cbn [fst snd].
  destruct (String.eqb (ev_end_time prev) (ev_start_time curr)); cbn [negb].
  - apply IH.
  - cbn [map_r]. unfold implicit_break_of at 1. cbn [fst snd].
    destruct (calculate_duration_in_minutes (ev_end_time prev) (ev_start_time curr)); cbn [bind];
      [|reflexivity].
    rewrite IH. reflexivity.
Qed.

(** C3: the implicit breaks of a resolved timeline are exactly one entry
    [(prev.end_time, duration(prev.end_time, curr.start_time),
    prev.destination_stop_id)] per adjacent pair whose times differ as
    strings, in timeline order; a 20-minute gap from ["0.10:00"] gives one
    break of 20 minutes shown at ["10:00"], equal times give none, and
    timelines of zero or one event give none. *)
Theorem implicit_breaks_spec :
  (forall evs, implicit_breaks evs = map_r implicit_break_of (filter has_gap (adjacent_pairs evs))) /\
  (forall s0 o0 d0 b0 e1 o1 d1 b1,
     implicit_breaks [mk_resolved s0 "0.10:00" o0 d0 b0; mk_resolved "0.10:20" e1 o1 d1 b1]
     = Ok [("0.10:00", 20, d0)] /\ day_offset_to_simple_time "0.10:00" = Ok "10:00") /\
  (forall s0 t o0 d0 b0 e1 o1 d1 b1,
     implicit_breaks [mk_resolved s0 t o0 d0 b0; mk_resolved t e1 o1 d1 b1] = Ok []) /\
  implicit_breaks [] = Ok [] /\
  (forall ev, implicit_breaks [ev] = Ok []).
Proof.
  split; [|split; [|split; [|split]]].
  - intros [|e rest]; [reflexivity|]. apply implicit_breaks_from_pairs.
  - intros. split; reflexivity.
  - intros. cbn. rewrite String.eqb_refl. reflexivity.
  - reflexivity.
  - reflexivity.
Qed.

(* ------------------------------------------------------------------ *)
(** ** C4: times of duty events *)

(** C4: a duty event that is not a [vehicle_event] gives its own [start_time]
    or [end_time]; a duty event resolving to a [service_trip] vehicle event
    gives the [departure_time] or [arrival_time] of the trip looked up by the
    vehicle event's [trip_id], and any time it returns is that of a trip of
    the dataset carrying that id. *)
Theorem get_duty_event_time_resolution :
  (forall ds ty s e o d,
     get_duty_event_time (DEOwn ty s e o d) ds "start" = Ok s /\
     get_duty_event_time (DEOwn ty s e o d) ds "end" = Ok e) /\
  (forall ds vid idx ve tid,
     get_vehicle_event_by_index ds vid idx = Ok ve -> ve_body ve = VETrip tid ->
     get_duty_event_time (DEVehicleEvent vid idx) ds "start" =
       (tr <- get_object_by_id (trips ds) "trip_id" trip_key (PStr tid) None ;; Ok (departure_time tr)) /\
     get_duty_event_time (DEVehicleEvent vid idx) ds "end" =
       (tr <- get_object_by_id (trips ds) "trip_id" trip_key (PStr tid) None ;; Ok (arrival_time tr)) /\
     (forall x, get_duty_event_time (DEVehicleEvent vid idx) ds "start" = Ok x ->
        exists tr, In tr (trips ds) /\ trip_id tr = tid /\ x = departure_time tr) /\
     (forall x, get_duty_event_time (DEVehicleEvent vid idx) ds "end" = Ok x ->
        exists tr, In tr (trips ds) /\ trip_id tr = tid /\ x = arrival_time tr)).
Proof.
  split.
  - intros. split; reflexivity.
  - intros ds vid idx ve tid Hve Hb.
    assert (Hs : get_duty_event_time (DEVehicleEvent vid idx) ds "start" =
       (tr <- get_object_by_id (trips ds) "trip_id" trip_key (PStr tid) None ;; Ok (departure_time tr)))
      by (unfold get_duty_event_time; rewrite Hve; cbn [bind]; rewrite Hb; reflexivity).
    assert (He : get_duty_event_time (DEVehicleEvent vid idx) ds "end" =
       (tr <- get_object_by_id (trips ds) "trip_id" trip_key (PStr tid) None ;; Ok (arrival_time tr)))
      by (unfold get_duty_event_time; rewrite Hve; cbn [bind]; rewrite Hb; reflexivity).
    split; [exact Hs|]. split; [exact He|].
    split; intros x Hx; [rewrite Hs in Hx | rewrite He in Hx];
      destruct (get_object_by_id (trips ds) "trip_id" trip_key (PStr tid) None) as [tr|] eqn:L;
      cbn [bind] in Hx; try discriminate; injection Hx as <-;
      apply get_object_by_id_sound in L as [L1 L2]; exists tr; (split; [exact L1|]);
      unfold trip_key, py_eq in L2; apply String.eqb_eq in L2; auto.
Qed.

Lemma get_duty_event_time_resolution_witness :
  get_vehicle_event_by_index c4_dataset "1" 0 = Ok c4_event /\
  get_duty_event_time (DEVehicleEvent "1" 0) c4_dataset "start" =
    (tr <- get_object_by_id (trips c4_dataset) "trip_id" trip_key (PStr "1") None ;; Ok (departure_time tr)) /\
  get_duty_event_time (DEVehicleEvent "1" 0) c4_dataset "end" =
    (tr <- get_object_by_id (trips c4_dataset) "trip_id" trip_key (PStr "1") None ;; Ok (arrival_time tr)) /\
  (forall x, get_duty_event_time (DEVehicleEvent "1" 0) c4_dataset "start" = Ok x ->
     exists tr, In tr (trips c4_dataset) /\ trip_id tr = "1" /\ x = departure_time tr) /\
  (forall x, get_duty_event_time (DEVehicleEvent "1" 0) c4_dataset "end" = Ok x ->
     exists tr, In tr (trips c4_dataset) /\ trip_id tr = "1" /\ x = arrival_time tr).
Proof.
  split; [reflexivity|].
  apply (proj2 get_duty_event_time_resolution c4_dataset "1" 0 c4_event "1");
    reflexivity.
Defined.

(* ------------------------------------------------------------------ *)
(** ** Stable sorting *)

Section SortBy.
Variable A : Type.
Variable key : A -> string.

Lemma insert_by_perm (x : A) (l : list A) : Permutation (insert_by key x l) (x :: l).
Proof.
  induction l as [|y l IH]; cbn; [reflexivity|].
  destruct (str_ltb (key y) (key x)); [|reflexivity].
  rewrite IH. apply perm_swap.
Qed.

Lemma sort_by_perm (l : list A) : Permutation (sort_by key l) l.
Proof.
  induction l as [|x l IH]; cbn; [reflexivity|].
  rewrite insert_by_perm. now apply perm_skip.
Qed.

Lemma In_sort_by (l : list A) (x : A) : In x (sort_by key l) <-> In x l.
Proof. split; apply Permutation_in; [apply sort_by_perm | symmetry; apply sort_by_perm]. Qed.
End SortBy.

Arguments In_sort_by {A} key l x.
Arguments sort_by_perm {A} key l.

(* ------------------------------------------------------------------ *)
(** ** Per-duty loop of the start/end report *)

Lemma start_end_rows_skip (ds : dataset) (l : list duty) (d : duty) :
  duty_start_end_row ds d = Err KeyError ->
  start_end_rows ds (d :: l) = start_end_rows ds l.
Proof. intros H. cbn. now rewrite H. Qed.

(** When every duty gives a row, a [KeyError] or an [IndexError], and one
    gives an [IndexError], the loop raises [IndexError]. *)
Lemma start_end_rows_index_error (ds : dataset) (l : list duty) (d : duty) :
  In d l -> duty_start_end_row ds d = Err IndexError ->
  (forall d', In d' l -> (exists r, duty_start_end_row ds d' = Ok r) \/
                         duty_start_end_row ds d' = Err KeyError \/
                         duty_start_end_row ds d' = Err IndexError) ->
  start_end_rows ds l = Err IndexError.
Proof.
  induction l as [|d0 l IH]; intros Hin Hd Hall; [destruct Hin|].
  cbn [start_end_rows].
  destruct Hin as [<-|Hin].
  - rewrite Hd. reflexivity.
  - assert (IH' : start_end_rows ds l = Err IndexError)
      by (apply IH; auto; intros; apply Hall; now right).
    destruct (Hall d0 (or_introl eq_refl)) as [[r Hr]|[Hr|Hr]]; rewrite Hr;
      [rewrite IH'|exact IH'|]; reflexivity.
Qed.

(** A duty raising anything but [KeyError] makes the loop raise. *)
Lemma start_end_rows_abort (ds : dataset) (l : list duty) (d : duty) (e : exn) :
  In d l -> duty_start_end_row ds d = Err e -> e <> KeyError ->
  exists e', start_end_rows ds l = Err e'.
Proof.
  induction l as [|d0 l IH]; intros Hin Hd He; [destruct Hin|].
  cbn [start_end_rows]. destruct Hin as [<-|Hin].
  - rewrite Hd. destruct e; try (eexists; reflexivity). congruence.
  - destruct (IH Hin Hd He) as [e' He'].
    destruct (duty_start_end_row ds d0) as [r|[]]; cbn iota beta;
      try (rewrite He'; cbn [bind]); eauto.
Qed.

Lemma duty_start_end_row_empty (ds : dataset) (d : duty) :
  duty_events d = [] -> duty_start_end_row ds d = Err IndexError.
Proof. intros H. unfold duty_start_end_row. rewrite H. reflexivity. Qed.

(** C10: a duty without events is not skipped: its [duty_events[0]] raises
    [IndexError], which the per-duty [except KeyError] does not catch, so
    [generate_duty_start_end_times_report] never returns; on a dataset that
    passes validation and whose other duties give rows, [KeyError]s or the
    same [IndexError], the report raises [IndexError]. *)
Theorem start_end_report_empty_duty_aborts (ds : dataset) (d : duty) :
  In d (duties ds) -> duty_events d = [] ->
  (forall out, generate_duty_start_end_times_report ds <> Ok out) /\
  (validate_json_data ds = Ok tt ->
   (forall d', In d' (duties ds) ->
      (exists r, duty_start_end_row (sort_all_raw_data_list ds) d' = Ok r) \/
      duty_start_end_row (sort_all_raw_data_list ds) d' = Err KeyError \/
      duty_start_end_row (sort_all_raw_data_list ds) d' = Err IndexError) ->
   generate_duty_start_end_times_report ds = Err IndexError).
Proof.
  intros Hin He.
  assert (Hin' : In d (duties (sort_all_raw_data_list ds))) by (cbn; now apply In_sort_by).
  pose proof (duty_start_end_row_empty (sort_all_raw_data_list ds) d He) as Hrow.
  split.
  - intros out. unfold generate_duty_start_end_times_report.
    destruct (validate_json_data ds) as [[]|e]; cbn [bind]; [|discriminate].
    destruct (start_end_rows_abort _ _ d IndexError Hin' Hrow ltac:(discriminate)) as [e' ->].
    discriminate.
  - intros Hv Hall. unfold generate_duty_start_end_times_report. rewrite Hv. cbn [bind].
    rewrite (start_end_rows_index_error _ _ d Hin' Hrow); [reflexivity|].
    intros d' Hd'. apply Hall. cbn in Hd'. now apply In_sort_by in Hd'.
Qed.

Lemma start_end_report_empty_duty_aborts_witness :
  (forall out, generate_duty_start_end_times_report c10_dataset <> Ok out) /\
  generate_duty_start_end_times_report c10_dataset = Err IndexError.
Proof.
  destruct (start_end_report_empty_duty_aborts c10_dataset (mk_duty "2" []))
    as [H1 H2]; [left; reflexivity | reflexivity |].
  split; [exact H1|]. apply H2; [reflexivity|].
  intros d' [<-|[<-|[]]]; [right; right; reflexivity | left; eexists; reflexivity].
Defined.

(* ------------------------------------------------------------------ *)
(** ** C7: isolation of missing references in the start/end report *)






(* ------------------------------------------------------------------ *)
(** ** C6: malformed times *)

(** C6 (counterexample): the time ["0.1000"] of duty ["1"] does not match
    the day-offset pattern; duty ["2"] alone yields a row, yet the report
    raises [ValidationError] and outputs no row at all. *)
Lemma start_end_report_malformed_time_aborts_all :
  day_offset_pattern "0.1000" = false /\
  duty_start_end_row (sort_all_raw_data_list c6_dataset) (sign_on_duty "2" "0.07:00" "0.07:10")
    = Ok ("2", "07:00", "07:10") /\
  generate_duty_start_end_times_report c6_dataset = Err ValidationError.
Proof. repeat split; reflexivity. Qed.

(** C6 (amended): a time string that does not match the schema's day-offset
    pattern gets no per-duty treatment: [_validate_json_data] rejects the
    whole dataset, so the start/end report and the location-aware report
    built on it raise [ValidationError] before any duty is processed. *)
Theorem malformed_time_rejects_dataset (ds : dataset) :
  schema_valid ds = false ->
  generate_duty_start_end_times_report ds = Err ValidationError /\
  generate_duty_start_end_times_and_stops_report ds = Err ValidationError.
Proof.
  intros H.
  assert (Hv : validate_json_data ds = Err ValidationError)
    by (unfold validate_json_data; now rewrite H).
  assert (H1 : generate_duty_start_end_times_report ds = Err ValidationError)
    by (unfold generate_duty_start_end_times_report; now rewrite Hv).
  split; [exact H1|].
  unfold generate_duty_start_end_times_and_stops_report. now rewrite H1.
Qed.

Lemma malformed_time_rejects_dataset_witness :
  generate_duty_start_end_times_report c6_dataset = Err ValidationError /\
  generate_duty_start_end_times_and_stops_report c6_dataset = Err ValidationError.
Proof. apply malformed_time_rejects_dataset. reflexivity. Defined.

(* ------------------------------------------------------------------ *)
(** ** C8: duplicate identifiers *)

Lemma In_dedup_seen (x : string) (l seen : list string) :
  In x l -> In x seen \/ In x (dedup_seen seen l).
Proof.
  revert seen. induction l as [|y l IH]; intros seen Hin; [destruct Hin|].
  cbn [dedup_seen]. destruct Hin as [Hyx|Hin].
  - subst y. destruct (existsb (String.eqb x) seen) eqn:E.
    + left. apply existsb_exists in E as [z [Hz Ez]]. apply String.eqb_eq in Ez. now subst.
    + right. now left.
  - destruct (existsb (String.eqb y) seen) eqn:E; [now apply IH|].
    destruct (IH (y :: seen) Hin) as [[<-|H]|H]; [right; now left|now left|right; now right].
Qed.

Lemma In_dedup_first (x : string) (l : list string) : In x l -> In x (dedup_first l).
Proof. intros H. destruct (In_dedup_seen x l [] H) as [[]|H']. exact H'. Qed.

Lemma check_ids_dup {A} (objs : list A) (id : A -> string) (ids : list string) (i : string) :
  In i ids -> (1 < List.length (filter (fun o => String.eqb (id o) i) objs))%nat ->
  check_ids objs id ids = Err TypeError.
Proof.
  induction ids as [|j ids IH]; intros Hin Hc; [destruct Hin|].
  cbn [check_ids].
  destruct (Nat.ltb 1 (List.length (filter (fun o => String.eqb (id o) j) objs))) eqn:C.
  - apply Nat.ltb_lt in C.
    destruct (filter (fun o => String.eqb (id o) j) objs); [cbn in C; lia|reflexivity].
  - destruct Hin as [<-|Hin].
    + apply Nat.ltb_ge in C. lia.
    + now apply IH.
Qed.

Lemma check_unique_ids_shared {A} (objs : list A) (id : A -> string) :
  shares_id id objs -> check_unique_ids objs id = Err TypeError.
Proof.
  intros (l1 & x & l2 & y & l3 & -> & Hxy).
  apply (check_ids_dup _ _ _ (id x)).
  - apply In_dedup_first. apply in_map. apply in_or_app. right. now left.
  - rewrite !filter_app. cbn [filter]. rewrite String.eqb_refl.
    rewrite filter_app. cbn [filter]. rewrite <- Hxy, String.eqb_refl.
    rewrite !length_app. cbn [List.length]. rewrite length_app. cbn [List.length]. lia.
Qed.

Lemma check_unique_ids_cases {A} (objs : list A) (id : A -> string) :
  check_unique_ids objs id = Ok tt \/ check_unique_ids objs id = Err TypeError.
Proof.
  unfold check_unique_ids. generalize (dedup_first (map id objs)) as ids.
  induction ids as [|j ids IH]; [now left|]. cbn [check_ids].
  destruct (Nat.ltb 1 _) eqn:C; [|exact IH].
  apply Nat.ltb_lt in C.
  destruct (filter (fun o => String.eqb (id o) j) objs); [cbn in C; lia|now right].
Qed.

(** C8: during [_validate_json_data], a collection in which two records
    share an id, whether or not they are identical, makes validation raise
    [TypeError]: [set(items_with_same_id)] hashes dicts, which are
    unhashable. An identical repeat is thus not tolerated, and the
    intended [AssertionError] for distinct records is never reached. *)
Theorem validate_json_data_shared_id_type_error (ds : dataset) :
  schema_valid ds = true ->
  shares_id duty_id (duties ds) \/ shares_id vehicle_id (vehicles ds) \/
  shares_id trip_id (trips ds) \/ shares_id stop_id (stops ds) ->
  validate_json_data ds = Err TypeError.
Proof.
  intros Hs Hsh. unfold validate_json_data. rewrite Hs.
  destruct (check_unique_ids_cases (duties ds) duty_id) as [E1|E1]; rewrite E1; cbn [bind];
    [|reflexivity].
  destruct (check_unique_ids_cases (vehicles ds) vehicle_id) as [E2|E2]; rewrite E2; cbn [bind];
    [|reflexivity].
  destruct (check_unique_ids_cases (trips ds) trip_id) as [E3|E3]; rewrite E3; cbn [bind];
    [|reflexivity].
  destruct Hsh as [H|[H|[H|H]]]; apply check_unique_ids_shared in H; congruence.
Qed.

Lemma validate_json_data_shared_id_type_error_witness :
  validate_json_data c8_dataset = Err TypeError.
Proof.
  apply validate_json_data_shared_id_type_error; [reflexivity|].
  left. exists [], c8_duty, [], c8_duty, []. split; reflexivity.
Defined.

(* ------------------------------------------------------------------ *)
(** ** C9: duties without service trips in the location-aware report *)

Lemma process_duty_start_and_end_stops_row (ds : dataset) (did : string) (r r' : row2)
  (res : result unit) :
  process_duty_start_and_end_stops ds did r = (r', res) ->
  r_duty_id r' = r_duty_id r /\ (no_nan r = true -> no_nan r' = true).
Proof.
  unfold process_duty_start_and_end_stops. intros H.
  repeat match type of H with
    | context [match ?m with _ => _ end] => destruct m
    end;
  injection H as <- <-; split; try reflexivity; unfold no_nan; cbn;
  try (intros Hn; apply negb_true_iff in Hn; apply orb_false_iff in Hn as [_ Hn]; now rewrite Hn);
  auto.
Qed.

Lemma stops_rows_rows (ds : dataset) (rs rs' : list row2) :
  stops_rows ds rs = Ok rs' ->
  map r_duty_id rs' = map r_duty_id rs /\ (forallb no_nan rs = true -> forallb no_nan rs' = true).
Proof.
  revert rs'. induction rs as [|r rs IH]; intros rs' H.
  - injection H as <-. now split.
  - cbn [stops_rows] in H.
    destruct (process_duty_start_and_end_stops ds (r_duty_id r) r) as [r1 res] eqn:P.
    apply process_duty_start_and_end_stops_row in P as [P1 P2].
    assert (K : forall rest, stops_rows ds rs = Ok rest -> r1 :: rest = rs' ->
              map r_duty_id rs' = map r_duty_id (r :: rs) /\
              (forallb no_nan (r :: rs) = true -> forallb no_nan rs' = true)).
    { intros rest Hr <-. destruct (IH rest Hr) as [I1 I2]. cbn [map forallb].
      rewrite P1, I1. split; [reflexivity|].
      intros Hf. apply andb_true_iff in Hf as [Hf1 Hf2]. rewrite P2, I2; auto. }
    destruct res as [[]|[]]; try discriminate;
      destruct (stops_rows ds rs) as [rest|e] eqn:E; cbn [bind] in H; try discriminate;
      injection H as H; eauto.
Qed.

Lemma dropna_no_nan (rs : list row2) : forallb no_nan rs = true -> dropna rs = rs.
Proof.
  induction rs as [|r rs IH]; [reflexivity|]. cbn [forallb].
  intros Hf. apply andb_true_iff in Hf as [Hf1 Hf2].
  unfold dropna in *. cbn [filter]. unfold no_nan in Hf1. rewrite Hf1, IH; auto.
Qed.

(** C9: the location-aware report keeps one row per row of the start/end
    report, in order. The stop-description cells start as [""], and a duty
    without service trips leaves them so. [dropna] drops only missing
    values, so no duty is excluded, whether or not it has service trips. *)
Theorem stops_report_keeps_every_duty (ds ds' : dataset) (rows2 : list row2) :
  generate_duty_start_end_times_and_stops_report ds = Ok (ds', rows2) ->
  exists rows1, generate_duty_start_end_times_report ds = Ok (ds', rows1) /\
    map r_duty_id rows2 = map row1_duty_id rows1.
Proof.
  unfold generate_duty_start_end_times_and_stops_report.
  destruct (generate_duty_start_end_times_report ds) as [[ds1 rows1]|e]; cbn [bind];
    [|discriminate].
  set (report := map (fun '(did, s, e) => mk_row2 did s e (CStr "") (CStr "")) rows1).
  destruct (stops_rows ds1 report) as [rs|e] eqn:E; cbn [bind]; [|discriminate].
  intros H. injection H as <- <-. exists rows1. split; [reflexivity|].
  apply stops_rows_rows in E as [E1 E2].
  assert (R1 : map r_duty_id report = map row1_duty_id rows1).
  { subst report. rewrite map_map. apply map_ext. now intros [[? ?] ?]. }
  assert (R2 : forallb no_nan report = true).
  { subst report. clear. induction rows1 as [|[[? ?] ?] rows1 IH]; [reflexivity|].
    cbn. exact IH. }
  rewrite dropna_no_nan by auto. congruence.
Qed.

Lemma stops_report_keeps_every_duty_witness :
  generate_duty_start_end_times_and_stops_report c9_dataset =
    Ok (sort_all_raw_data_list c9_dataset,
        [mk_row2 "1" "07:00" "07:10" (CStr "") (CStr "")]) /\
  exists rows1, generate_duty_start_end_times_report c9_dataset =
    Ok (sort_all_raw_data_list c9_dataset, rows1) /\
    map r_duty_id [mk_row2 "1" "07:00" "07:10" (CStr "") (CStr "")] = map row1_duty_id rows1.
Proof.
  split; [vm_compute; reflexivity|].
  apply stops_report_keeps_every_duty. vm_compute. reflexivity.
Defined.

(* ------------------------------------------------------------------ *)
(** ** C2: order and filtering of the breaks *)

Lemma str_ltb_irrefl (a : string) : str_ltb a a = false.
Proof. induction a as [|c a IH]; cbn [str_ltb]; [reflexivity|]. now rewrite Nat.ltb_irrefl, Nat.eqb_refl. Qed.

Lemma str_ltb_trans (a b c : string) :
  str_ltb a b = true -> str_ltb b c = true -> str_ltb a c = true.
Proof.
  revert b c. induction a as [|x a IH]; intros [|y b] [|z c]; cbn [str_ltb]; try discriminate; auto.
  destruct (Nat.ltb_spec (nat_of_ascii x) (nat_of_ascii y));
  destruct (Nat.eqb_spec (nat_of_ascii x) (nat_of_ascii y));
  destruct (Nat.ltb_spec (nat_of_ascii y) (nat_of_ascii z));
  destruct (Nat.eqb_spec (nat_of_ascii y) (nat_of_ascii z));
  destruct (Nat.ltb_spec (nat_of_ascii x) (nat_of_ascii z));
  destruct (Nat.eqb_spec (nat_of_ascii x) (nat_of_ascii z));
  intros; try discriminate; try reflexivity; try lia; eauto.
Qed.

Lemma str_ltb_asym (a b : string) : str_ltb a b = true -> str_ltb b a = false.
Proof.
  intros H. destruct (str_ltb b a) eqn:E; [|reflexivity].
  pose proof (str_ltb_trans _ _ _ H E) as C. now rewrite str_ltb_irrefl in C.
Qed.

Lemma str_ltb_total (a b : string) : str_ltb a b = false -> str_ltb b a = false -> a = b.
Proof.
  revert b. induction a as [|x a IH]; intros [|y b]; cbn [str_ltb]; try discriminate; auto.
  destruct (Nat.ltb_spec (nat_of_ascii x) (nat_of_ascii y)); [discriminate|].
  destruct (Nat.ltb_spec (nat_of_ascii y) (nat_of_ascii x)); [discriminate|].
  assert (Hxy : nat_of_ascii x = nat_of_ascii y) by lia.
  rewrite Hxy, Nat.eqb_refl. intros H1 H2. f_equal; [|now apply IH].
  rewrite <- (ascii_nat_embedding x), <- (ascii_nat_embedding y). now rewrite Hxy.
Qed.

Lemma str_le_trans (a b c : string) :
  str_ltb b a = false -> str_ltb c b = false -> str_ltb c a = false.
Proof.
  intros H1 H2. destruct (str_ltb c a) eqn:E; [|reflexivity].
  destruct (str_ltb a b) eqn:F.
  - now rewrite (str_ltb_trans _ _ _ E F) in H2.
  - rewrite (str_ltb_total _ _ F H1) in E. congruence.
Qed.

Lemma filter_filter {A} (f g : A -> bool) (l : list A) :
  filter f (filter g l) = filter (fun x => g x && f x) l.
Proof.
  induction l as [|x l IH]; cbn; [reflexivity|].
  destruct (g x); cbn; [destruct (f x); cbn; congruence | exact IH].
Qed.

Lemma filter_perm {A} (f : A -> bool) (l l' : list A) :
  Permutation l l' -> Permutation (filter f l) (filter f l').
Proof.
  induction 1; cbn.
  - constructor.
  - destruct (f x); auto.
  - destruct (f x), (f y); auto using perm_swap, Permutation_refl.
  - eauto using Permutation_trans.
Qed.

Lemma Sorted_filter {A} (R : A -> A -> Prop) (f : A -> bool) (l : list A) :
  (forall x y z, R x y -> R y z -> R x z) -> Sorted R l -> Sorted R (filter f l).
Proof.
  intros T S. apply StronglySorted_Sorted. apply Sorted_StronglySorted in S; [|exact T].
  induction S as [|x l S IH H]; cbn; [constructor|].
  destruct (f x); [|exact IH]. constructor; [exact IH|].
  apply Forall_forall. intros y Hy. apply filter_In in Hy as [Hy _].
  exact (proj1 (Forall_forall _ _) H y Hy).
Qed.

Section StableSort.
Variable A : Type.
Variable key : A -> string.

Let le_key (a b : A) : Prop := str_ltb (key b) (key a) = false.

Lemma insert_by_sorted (x : A) (l : list A) : Sorted le_key l -> Sorted le_key (insert_by key x l).
Proof.
  induction l as [|y l IH]; intros S; cbn; [repeat constructor|].
  destruct (str_ltb (key y) (key x)) eqn:E.
  - apply Sorted_inv in S as [S H]. constructor; [now apply IH|].
    destruct l as [|z l]; cbn.
    + constructor. unfold le_key. now apply str_ltb_asym.
    + destruct (str_ltb (key z) (key x)); constructor.
      * now apply HdRel_inv in H.
      * unfold le_key. now apply str_ltb_asym.
  - constructor; [exact S|]. now constructor.
Qed.

Lemma sort_by_sorted (l : list A) : Sorted le_key (sort_by key l).
Proof. induction l as [|x l IH]; cbn; [constructor|]. now apply insert_by_sorted. Qed.

Lemma insert_by_stable (s : string) (x : A) (l : list A) :
  filter (fun a => String.eqb (key a) s) (insert_by key x l) =
  filter (fun a => String.eqb (key a) s) (x :: l).
Proof.
  induction l as [|y l IH]; cbn; [reflexivity|].
  destruct (str_ltb (key y) (key x)) eqn:E; [|reflexivity].
  cbn. rewrite IH. cbn.
  destruct (String.eqb_spec (key y) s), (String.eqb_spec (key x) s); try reflexivity.
  subst s. rewrite e0, str_ltb_irrefl in E. discriminate.
Qed.

Lemma sort_by_stable (s : string) (l : list A) :
  filter (fun a => String.eqb (key a) s) (sort_by key l) =
  filter (fun a => String.eqb (key a) s) l.
Proof.
  induction l as [|x l IH]; cbn [sort_by]; [reflexivity|].
  rewrite insert_by_stable. cbn. now rewrite IH.
Qed.
End StableSort.

Arguments sort_by_sorted {A} key l.
Arguments sort_by_stable {A} key s l.

(** C2 (counterexample): the breaks are sorted by the raw day-offset
    string, lexically. The break starting at "10.01:00" comes before those
    at "9.22:00" and "9.23:00", though it starts 180 minutes after the
    first of them. The dataset passes validation. *)
Lemma calculate_breaks_lexical_order :
  validate_json_data c2_dataset = Ok tt /\
  calculate_breaks c2_dataset "d0" 16 ["sign_on"] =
    Ok [("01:00", 60, "Stop 2"); ("22:00", 60, "Stop 1"); ("23:00", 120, "Stop 1")] /\
  calculate_duration_in_minutes "9.22:00" "10.01:00" = Ok 180.
Proof. vm_compute. repeat split. Qed.

(** C2 (amended): the breaks returned by [_calculate_breaks] are the
    explicit breaks followed by the implicit ones, keeping those lasting at
    least [min_duration_mins]. They are ordered ascending by their raw
    start string under Python's lexical string order, and breaks with
    equal start strings keep their discovery order (stable sort). Each kept
    break is then mapped to (simple time, duration, stop name). *)
Theorem calculate_breaks_spec (ds : dataset) (did : string) (min_duration_mins : Z)
  (tags : list string) (out : list (string * Z * string)) :
  calculate_breaks ds did min_duration_mins tags = Ok out ->
  exists evs ex im kept,
    populate_duty_events_with_details ds did tags = Ok evs /\
    explicit_breaks evs = Ok ex /\ implicit_breaks evs = Ok im /\
    Permutation kept (filter (fun b => Z.leb min_duration_mins (break_duration b)) (app ex im)) /\
    Sorted break_le kept /\
    (forall s, filter (fun b => String.eqb (break_start b) s) kept =
               filter (fun b => String.eqb (break_start b) s &&
                                Z.leb min_duration_mins (break_duration b)) (app ex im)) /\
    transform_raw_breaks ds min_duration_mins kept = Ok out.
Proof.
  unfold calculate_breaks.
  destruct (populate_duty_events_with_details ds did tags) as [evs|e] eqn:E1; cbn [bind];
    [|discriminate].
  destruct (explicit_breaks evs) as [ex|e] eqn:E2; cbn [bind]; [|discriminate].
  destruct (implicit_breaks evs) as [im|e] eqn:E3; cbn [bind]; [|discriminate].
  intros H.
  set (P := fun b : raw_break => Z.leb min_duration_mins (break_duration b)).
  exists evs, ex, im, (filter P (sort_by break_start (app ex im))).
  split; [reflexivity|]. split; [exact E2|]. split; [exact E3|].
  split; [apply filter_perm, sort_by_perm|].
  split; [apply Sorted_filter; [intros ? ? ?; apply str_le_trans|apply sort_by_sorted]|].
  split.
  - intros s. rewrite filter_filter.
    transitivity (filter P (filter (fun b => String.eqb (break_start b) s)
                                   (sort_by break_start (app ex im)))).
    { rewrite filter_filter. apply filter_ext. intros b. apply andb_comm. }
    rewrite sort_by_stable, filter_filter. reflexivity.
  - unfold transform_raw_breaks in *. fold P in H |- *. rewrite filter_filter.
    erewrite filter_ext; [exact H|]. intros b. apply andb_diag.
Qed.

Lemma calculate_breaks_spec_witness :
  calculate_breaks c2_dataset "d0" 16 ["sign_on"] =
    Ok [("01:00", 60, "Stop 2"); ("22:00", 60, "Stop 1"); ("23:00", 120, "Stop 1")] /\
  exists evs ex im kept,
    populate_duty_events_with_details c2_dataset "d0" ["sign_on"] = Ok evs /\
    explicit_breaks evs = Ok ex /\ implicit_breaks evs = Ok im /\
    Permutation kept (filter (fun b => Z.leb 16 (break_duration b)) (app ex im)) /\
    Sorted break_le kept /\
    (forall s, filter (fun b => String.eqb (break_start b) s) kept =
               filter (fun b => String.eqb (break_start b) s &&
                                Z.leb 16 (break_duration b)) (app ex im)) /\
    transform_raw_breaks c2_dataset 16 kept =
      Ok [("01:00", 60, "Stop 2"); ("22:00", 60, "Stop 1"); ("23:00", 120, "Stop 1")].
Proof.
  split; [vm_compute; reflexivity|].
  apply calculate_breaks_spec. vm_compute. reflexivity.
Defined.

(* ================================================================== *)
(** * Further properties of the code *)

(* ------------------------------------------------------------------ *)
(** ** [src/src/utils/time.py] *)

Lemma py_int_cases (s : string) : (exists n, py_int s = Ok n) \/ py_int s = Err ValueError.
Proof.
  unfold py_int. destruct (signed_value _); eauto.
Qed.

Lemma strptime_dHM_cases (s : string) :
  (exists dt, strptime_dHM s = Ok dt) \/ strptime_dHM s = Err ValueError.
Proof.
  unfold strptime_dHM.
  destruct (match_d _ _) as [[dt [|c r]]|]; eauto.
Qed.

Lemma parse_day_offset_time_cases (s : string) :
  (exists dt, parse_day_offset_time s = Ok dt) \/ parse_day_offset_time s = Err ValueError.
Proof.
  unfold parse_day_offset_time.
  destruct (py_split "." s) as [|d [|t [|? ?]]]; auto.
  destruct (py_int_cases d) as [[n ->]| ->]; cbn [bind]; [apply strptime_dHM_cases|auto].
Qed.

Lemma calculate_duration_in_minutes_parse (a b : string) :
  calculate_duration_in_minutes a b =
  match parse_day_offset_time a, parse_day_offset_time b with
  | Ok x, Ok y => Ok ((dt_seconds y - dt_seconds x) / 60)
  | _, _ => Err ValueError
  end.
Proof.
  unfold calculate_duration_in_minutes, parse_day_offset_time.
  destruct (py_split "." a) as [|d1 [|t1 [|? ?]]];
    destruct (py_split "." b) as [|d2 [|t2 [|? ?]]];
  repeat first
    [ reflexivity
    | match goal with
      | |- context [py_int ?d] => destruct (py_int_cases d) as [[? ->]| ->]; cbn [bind]
      | |- context [strptime_dHM ?s] =>
          destruct (strptime_dHM_cases s) as [[? ->]| ->]; cbn [bind]
      end ].
Qed.

Lemma dt_seconds_diff (x y : datetime) :
  (dt_seconds y - dt_seconds x) / 60 =
  ((dt_day y - 1) * 24 + dt_hour y) * 60 + dt_minute y -
  (((dt_day x - 1) * 24 + dt_hour x) * 60 + dt_minute x).
Proof. unfold dt_seconds. rewrite <- Z.mul_sub_distr_r. apply Z.div_mul. lia. Qed.

(** [calculate_duration_in_minutes] raises nothing but [ValueError]: a
    wrong number of dots, a day that is no integer and a time [strptime]
    rejects all end there, never in a [KeyError]. *)
Theorem calculate_duration_in_minutes_only_value_error (a b : string) (e : exn) :
  calculate_duration_in_minutes a b = Err e -> e = ValueError.
Proof.
  rewrite calculate_duration_in_minutes_parse.
  destruct (parse_day_offset_time a), (parse_day_offset_time b); congruence.
Qed.

Lemma calculate_duration_in_minutes_only_value_error_witness :
  calculate_duration_in_minutes "0.10" "0.11:00" = Err ValueError /\ ValueError = ValueError.
Proof.
  split; [vm_compute; reflexivity|].
  apply (calculate_duration_in_minutes_only_value_error "0.10" "0.11:00").
  vm_compute. reflexivity.
Defined.

(** Durations add up along a chain of times: the duration from [a] to [b]
    plus the one from [b] to [c] is the duration from [a] to [c]. *)
Theorem calculate_duration_in_minutes_additive (a b c : string) (x y : Z) :
  calculate_duration_in_minutes a b = Ok x -> calculate_duration_in_minutes b c = Ok y ->
  calculate_duration_in_minutes a c = Ok (x + y).
Proof.
  rewrite !calculate_duration_in_minutes_parse.
  destruct (parse_day_offset_time a) as [ta|], (parse_day_offset_time b) as [tb|],
    (parse_day_offset_time c) as [tc|]; try discriminate.
  intros H1 H2. injection H1 as <-. injection H2 as <-. f_equal.
  rewrite !dt_seconds_diff. lia.
Qed.

Lemma calculate_duration_in_minutes_additive_witness :
  calculate_duration_in_minutes "0.23:00" "1.00:30" = Ok 90 /\
  calculate_duration_in_minutes "1.00:30" "1.02:00" = Ok 90 /\
  calculate_duration_in_minutes "0.23:00" "1.02:00" = Ok (90 + 90).
Proof.
  assert (H1 : calculate_duration_in_minutes "0.23:00" "1.00:30" = Ok 90)
    by (vm_compute; reflexivity).
  assert (H2 : calculate_duration_in_minutes "1.00:30" "1.02:00" = Ok 90)
    by (vm_compute; reflexivity).
  split; [exact H1|]. split; [exact H2|].
  exact (calculate_duration_in_minutes_additive _ _ _ _ _ H1 H2).
Defined.

(** Swapping the arguments negates the duration, and a time that takes part
    in a computed duration is 0 minutes away from itself. *)
Theorem calculate_duration_in_minutes_antisymmetric (a b : string) (x : Z) :
  calculate_duration_in_minutes a b = Ok x ->
  calculate_duration_in_minutes b a = Ok (- x) /\
  calculate_duration_in_minutes a a = Ok 0 /\ calculate_duration_in_minutes b b = Ok 0.
Proof.
  rewrite !calculate_duration_in_minutes_parse.
  destruct (parse_day_offset_time a) as [ta|], (parse_day_offset_time b) as [tb|];
    try discriminate.
  intros H. injection H as <-. rewrite !dt_seconds_diff. repeat split; f_equal; lia.
Qed.

Lemma calculate_duration_in_minutes_antisymmetric_witness :
  calculate_duration_in_minutes "0.10:00" "0.09:30" = Ok (-30) /\
  (calculate_duration_in_minutes "0.09:30" "0.10:00" = Ok (- (-30)) /\
   calculate_duration_in_minutes "0.10:00" "0.10:00" = Ok 0 /\
   calculate_duration_in_minutes "0.09:30" "0.09:30" = Ok 0).
Proof.
  assert (H : calculate_duration_in_minutes "0.10:00" "0.09:30" = Ok (-30))
    by (vm_compute; reflexivity).
  split; [exact H|]. exact (calculate_duration_in_minutes_antisymmetric _ _ _ H).
Defined.

(** [day_offset_to_simple_time] drops the day offset: on ["<d>.<t>"] with
    no dot in [d] or [t] it returns [t]; a string without a dot raises
    [ValueError]. *)
Theorem day_offset_to_simple_time_spec (d t : string) :
  no_dot d = true -> no_dot t = true ->
  day_offset_to_simple_time (d ++ "." ++ t) = Ok t /\ day_offset_to_simple_time d = Err ValueError.
Proof.
  unfold no_dot, day_offset_to_simple_time. intros Hd Ht.
  rewrite <- (string_of_list_ascii_of_string d), <- (string_of_list_ascii_of_string t).
  rewrite <- (string_of_list_ascii_of_string (_ ++ _)), !list_ascii_of_string_app.
  rewrite !list_ascii_of_string_of_list_ascii. cbn [list_ascii_of_string app].
  rewrite py_split_app_sep by exact Hd. rewrite py_split_no_sep by exact Ht.
  rewrite py_split_no_sep by exact Hd. split; reflexivity.
Qed.

Lemma day_offset_to_simple_time_spec_witness :
  day_offset_to_simple_time ("12" ++ "." ++ "08:15") = Ok "08:15" /\
  day_offset_to_simple_time "12" = Err ValueError.
Proof. apply day_offset_to_simple_time_spec; reflexivity. Defined.

Lemma orelse_some {X} (a b : option X) (r : X) :
  orelse X a b = Some r -> a = Some r \/ b = Some r.
Proof. destruct a; cbn; auto. Qed.

Lemma match_lit_some {X} (c : ascii) (k : list ascii -> option X) (s : list ascii) (r : X) :
  match_lit c k s = Some r -> exists s', s = c :: s' /\ k s' = Some r.
Proof.
  destruct s as [|c' s]; cbn; [discriminate|].
  destruct (Ascii.eqb_spec c c'); [subst; eauto|discriminate].
Qed.

Ltac matcher_some H :=
  repeat (apply orelse_some in H as [H|H]);
  match type of H with
  | (match ?s with _ => _ end) = _ => destruct s as [|c1 [|c2 s]]
  end; cbn beta iota in H; try discriminate;
  match type of H with
  | (if ?b then ?k ?z ?r else None) = _ =>
      destruct b; [exists z, r; split; [intros ? ?; cbn; auto | exact H] | discriminate]
  end.

Lemma match_d_some {X} (k : Z -> list ascii -> option X) (s : list ascii) (r : X) :
  match_d k s = Some r -> exists z s', incl s' s /\ k z s' = Some r.
Proof. unfold match_d. intros H. matcher_some H. Qed.

Lemma match_H_some {X} (k : Z -> list ascii -> option X) (s : list ascii) (r : X) :
  match_H k s = Some r -> exists z s', incl s' s /\ k z s' = Some r.
Proof. unfold match_H. intros H. matcher_some H. Qed.

(** [strptime(s, "%d.%H:%M")] only accepts strings with a colon. *)
Lemma strptime_dHM_colon (s : string) (dt : datetime) :
  strptime_dHM s = Ok dt -> In ":"%char (list_ascii_of_string s).
Proof.
  unfold strptime_dHM.
  destruct (match_d _ (list_ascii_of_string s)) as [[dt' [|c r]]|] eqn:E; intros H;
    try discriminate.
  apply match_d_some in E as (z & s1 & I1 & E).
  apply match_lit_some in E as (s2 & -> & E).
  apply match_H_some in E as (h & s3 & I3 & E).
  apply match_lit_some in E as (s4 & -> & _).
  apply I1. right. apply I3. now left.
Qed.

Lemma Z_to_string_no_colon (z : Z) : ~ In ":"%char (list_ascii_of_string (Z_to_string z)).
Proof.
  unfold Z_to_string. destruct (Z.to_int z) as [u|u]; cbn [NilEmpty.string_of_int];
    [|cbn [list_ascii_of_string In]; intros [H|H]; [discriminate|revert H]];
  induction u; cbn [NilEmpty.string_of_uint list_ascii_of_string In]; intuition discriminate.
Qed.

Lemma digit_not_colon (n : nat) : (n < 10)%nat -> digit n <> ":"%char.
Proof.
  intros Hn E. apply (f_equal nat_of_ascii) in E. rewrite nat_of_digit in E by exact Hn.
  cbn in E. lia.
Qed.

Lemma digits_no_dot (day : list nat) :
  Forall (fun n : nat => (n < 10)%nat) day ->
  forallb (fun c => negb (Ascii.eqb c ".")) (map digit day) = true.
Proof.
  induction 1 as [|n l Hn _ IH]; [reflexivity|].
  cbn [map forallb]. rewrite digit_not_dot by exact Hn. exact IH.
Qed.

(** The schema pattern [^\d{1,2}\.\d{2}(:\d{2})?$] makes the minutes
    optional, so ["<day>.<hh>"] passes validation; [strptime] with
    ["%d.%H:%M"] needs them, so [calculate_duration_in_minutes] raises
    [ValueError] when such a string is its start or its end. *)
Theorem hour_only_time_passes_schema_fails_duration (day : list nat) (h1 h2 : nat) (t : string) :
  (1 <= List.length day <= 2)%nat -> Forall (fun n : nat => (n < 10)%nat) day ->
  (h1 < 10)%nat -> (h2 < 10)%nat ->
  day_offset_pattern (hour_only_str day h1 h2) = true /\
  calculate_duration_in_minutes (hour_only_str day h1 h2) t = Err ValueError /\
  calculate_duration_in_minutes t (hour_only_str day h1 h2) = Err ValueError.
Proof.
  intros Hl Hd Hh1 Hh2.
  assert (Hp : parse_day_offset_time (hour_only_str day h1 h2) = Err ValueError).
  { unfold parse_day_offset_time, hour_only_str.
    rewrite py_split_app_sep by now apply digits_no_dot.
    rewrite py_split_no_sep by (cbn [forallb]; now rewrite !digit_not_dot).
    destruct (py_int_day_token day Hl Hd) as [-> _]. cbn [bind].
    destruct (strptime_dHM_cases (Z_to_string (tok_val day + 1) ++ "." ++
                string_of_list_ascii [digit h1; digit h2])) as [[dt H]|H]; [|exact H].
    exfalso. apply strptime_dHM_colon in H.
    rewrite list_ascii_of_string_app in H. apply in_app_or in H as [H|H].
    - exact (Z_to_string_no_colon _ H).
    - cbn [list_ascii_of_string String.append] in H.
      rewrite list_ascii_of_string_of_list_ascii in H.
      destruct H as [H|[H|[H|[]]]]; [discriminate| |].
      + exact (digit_not_colon h1 Hh1 H).
      + exact (digit_not_colon h2 Hh2 H). }
  split; [|rewrite !calculate_duration_in_minutes_parse, Hp;
           split; [reflexivity|now destruct (parse_day_offset_time t)]].
  unfold day_offset_pattern, hour_only_str. rewrite list_ascii_of_string_of_list_ascii.
  destruct day as [|a [|b [|c r]]]; cbn [List.length] in Hl; try lia;
    inversion Hd as [|? ? Ha Hd']; subst; cbn [map app].
  - rewrite is_digit_digit by exact Ha. cbn [andb orb Ascii.eqb Bool.eqb].
    unfold pattern_after_dot, pattern_end. rewrite !is_digit_digit by assumption. reflexivity.
  - inversion Hd' as [|? ? Hb _]; subst.
    rewrite is_digit_digit by exact Ha. rewrite digit_not_dot by exact Hb.
    rewrite is_digit_digit by exact Hb. cbn [andb orb Ascii.eqb Bool.eqb].
    unfold pattern_after_dot, pattern_end. rewrite !is_digit_digit by assumption. reflexivity.
Qed.

Lemma hour_only_time_passes_schema_fails_duration_witness :
  day_offset_pattern (hour_only_str [1]%nat 0 8) = true /\
  calculate_duration_in_minutes (hour_only_str [1]%nat 0 8) "1.09:00" = Err ValueError /\
  calculate_duration_in_minutes "1.09:00" (hour_only_str [1]%nat 0 8) = Err ValueError.
Proof.
  apply hour_only_time_passes_schema_fails_duration; cbn; try lia. repeat constructor.
Defined.

Lemma tok_val_le_99 (day : list nat) :
  (1 <= List.length day <= 2)%nat -> Forall (fun n : nat => (n < 10)%nat) day -> tok_val day <= 99.
Proof.
  intros Hl Hd. destruct day as [|a [|b [|c r]]]; cbn [List.length] in Hl; try lia;
    inversion Hd as [|? ? Ha Hd']; subst; unfold tok_val; cbn [fold_left]; [lia|].
  inversion Hd' as [|? ? Hb _]; subst. lia.
Qed.

(** [%d] takes at most two digits, the second of ["3x"] being [0] or [1]:
    the day of month [32] to [100] followed by ["."] never matches. *)
Lemma strptime_dHM_day_over_31 (k : Z) (rest : string) :
  32 <= k <= 100 -> strptime_dHM (Z_to_string k ++ "." ++ rest) = Err ValueError.
Proof.
  intros Hk.
  assert (exists n, k = 32 + Z.of_nat n /\ (n <= 68)%nat) as [n [-> Hn]]
    by (exists (Z.to_nat (k - 32)); lia).
  clear Hk. do 69 (destruct n as [|n]; [vm_compute; reflexivity|]). lia.
Qed.

Lemma day_offset_pattern_time_str (day : list nat) (h1 h2 m1 m2 : nat) :
  well_formed_time day h1 h2 m1 m2 -> day_offset_pattern (time_str day h1 h2 m1 m2) = true.
Proof.
  intros (Hl & Hd & Hh1 & Hh2 & Hm1 & Hm2 & _).
  unfold day_offset_pattern, time_str. rewrite list_ascii_of_string_of_list_ascii.
  destruct day as [|a [|b [|c r]]]; cbn [List.length] in Hl; try lia;
    inversion Hd as [|? ? Ha Hd']; subst; cbn [map app].
  - rewrite is_digit_digit by exact Ha. cbn [andb orb Ascii.eqb Bool.eqb].
    unfold pattern_after_dot, pattern_end. rewrite !is_digit_digit by assumption. reflexivity.
  - inversion Hd' as [|? ? Hb _]; subst.
    rewrite is_digit_digit by exact Ha. rewrite digit_not_dot by exact Hb.
    rewrite is_digit_digit by exact Hb. cbn [andb orb Ascii.eqb Bool.eqb].
    unfold pattern_after_dot, pattern_end. rewrite !is_digit_digit by assumption. reflexivity.
Qed.

(** C5 (code bug): every well-formed day-offset string ["<d>.<hh>:<mm>"]
    whose day offset is 31 or more matches the schema pattern, yet
    [calculate_duration_in_minutes] raises [ValueError] whenever it is the
    start or the end, whatever the other time: the offset [d] is parsed as
    the day of month [d + 1] with [%d], which stops at 31. The claimed
    difference of minute counts is never returned for it. *)
Theorem calculate_duration_in_minutes_day_offset_over_30_fails
  (sd : list nat) (sh1 sh2 sm1 sm2 : nat) (t : string) :
  well_formed_time sd sh1 sh2 sm1 sm2 -> 31 <= tok_val sd ->
  day_offset_pattern (time_str sd sh1 sh2 sm1 sm2) = true /\
  calculate_duration_in_minutes (time_str sd sh1 sh2 sm1 sm2) t = Err ValueError /\
  calculate_duration_in_minutes t (time_str sd sh1 sh2 sm1 sm2) = Err ValueError.
Proof.
  intros Hw H31.
  assert (Hp : parse_day_offset_time (time_str sd sh1 sh2 sm1 sm2) = Err ValueError).
  { unfold parse_day_offset_time. rewrite (py_split_time_str _ _ _ _ _ Hw).
    destruct Hw as (Hl & Hd & _).
    destruct (py_int_day_token sd Hl Hd) as [-> _]. cbn [bind].
    apply strptime_dHM_day_over_31. pose proof (tok_val_le_99 sd Hl Hd). lia. }
  split; [exact (day_offset_pattern_time_str _ _ _ _ _ Hw)|].
  rewrite !calculate_duration_in_minutes_parse, Hp.
  split; [reflexivity|now destruct (parse_day_offset_time t)].
Qed.

Lemma calculate_duration_in_minutes_day_offset_over_30_fails_witness :
  day_offset_pattern (time_str [3; 1]%nat 0 0 0 0) = true /\
  calculate_duration_in_minutes (time_str [3; 1]%nat 0 0 0 0) "30.23:59" = Err ValueError /\
  calculate_duration_in_minutes "30.23:59" (time_str [3; 1]%nat 0 0 0 0) = Err ValueError.
Proof.
  apply calculate_duration_in_minutes_day_offset_over_30_fails;
    [unfold well_formed_time; repeat split; try (repeat constructor; lia); lia|vm_compute; discriminate].
Defined.

(* ------------------------------------------------------------------ *)
(** ** [_sort_all_raw_data_list] and [_get_object_by_id] *)

Lemma sort_by_id_sorted_copy {A} (f : A -> string) (l : list A) :
  stable_sorted_copy f (sort_by f l) l.
Proof.
  split; [apply sort_by_perm|]. split; [apply (sort_by_sorted f l)|].
  intros s. apply (sort_by_stable f s l).
Qed.

(** [_sort_all_raw_data_list] sorts each of the four collections by its id
    with a stable sort: every collection keeps its records, comes out in
    ascending id order (Python string order), and records sharing an id
    keep their relative order. *)
Theorem sort_all_raw_data_list_spec (ds : dataset) :
  let ds' := sort_all_raw_data_list ds in
  stable_sorted_copy duty_id (duties ds') (duties ds) /\
  stable_sorted_copy vehicle_id (vehicles ds') (vehicles ds) /\
  stable_sorted_copy trip_id (trips ds') (trips ds) /\
  stable_sorted_copy stop_id (stops ds') (stops ds).
Proof. cbn zeta. repeat split; apply sort_by_id_sorted_copy. Qed.

Lemma insert_by_sorted_head {A} (f : A -> string) (x : A) (l : list A) :
  id_sorted f (x :: l) -> insert_by f x l = x :: l.
Proof.
  intros S. destruct l as [|y l]; [reflexivity|]. cbn.
  apply Sorted_inv in S as [_ H]. apply HdRel_inv in H. now rewrite H.
Qed.

Lemma sort_by_sorted_id {A} (f : A -> string) (l : list A) : id_sorted f l -> sort_by f l = l.
Proof.
  induction l as [|x l IH]; intros S; [reflexivity|]. cbn [sort_by].
  rewrite IH by (now apply Sorted_inv in S as [S _]). now apply insert_by_sorted_head.
Qed.

(** Every report sorts [raw_data] in place before reading it, and the
    breaks report does so through the two other reports: sorting an already
    sorted dataset changes nothing. *)
Theorem sort_all_raw_data_list_idempotent (ds : dataset) :
  sort_all_raw_data_list (sort_all_raw_data_list ds) = sort_all_raw_data_list ds.
Proof.
  unfold sort_all_raw_data_list. cbn [duties vehicles trips stops].
  rewrite !(sort_by_sorted_id _ _ (sort_by_sorted _ _)). reflexivity.
Qed.

Lemma str_lt_le_trans (a b x : string) :
  str_ltb b a = false -> str_ltb b x = true -> str_ltb a x = true.
Proof.
  intros H1 H2. destruct (str_ltb a b) eqn:E.
  - exact (str_ltb_trans _ _ _ E H2).
  - now rewrite (str_ltb_total _ _ E H1).
Qed.

Lemma StronglySorted_nth {A} (R : A -> A -> Prop) (l : list A) (i j : nat) (a b : A) :
  StronglySorted R l -> (i < j)%nat -> nth_error l i = Some a -> nth_error l j = Some b -> R a b.
Proof.
  intros S. revert i j. induction S as [|y l S IH H]; intros i j Hij Ha Hb;
    [destruct i; discriminate|].
  destruct i as [|i]; destruct j as [|j]; try lia; cbn in Ha, Hb.
  - injection Ha as <-. exact (proj1 (Forall_forall _ _) H b (nth_error_In _ _ Hb)).
  - apply (IH i j); auto. lia.
Qed.

Lemma div2_bounds (lo hi : nat) :
  (lo < hi)%nat -> (lo <= Nat.div (lo + hi) 2 < hi)%nat.
Proof.
  intros H. pose proof (Nat.div_mod (lo + hi) 2 ltac:(lia)) as D.
  pose proof (Nat.mod_upper_bound (lo + hi) 2 ltac:(lia)). lia.
Qed.

Section Bisect.
Variable A : Type.
Variable f : A -> string.
Variable key : A -> option pyval.
Hypothesis Hkey : forall o, key o = Some (PStr (f o)).
Variable a : list A.
Variable x : string.
Hypothesis Hmono : forall i j oi oj, (i <= j)%nat -> nth_error a i = Some oi ->
  nth_error a j = Some oj -> str_ltb (f oj) x = true -> str_ltb (f oi) x = true.

Lemma bisect_go_spec (fuel lo hi : nat) :
  (lo <= hi <= List.length a)%nat -> (hi - lo <= fuel)%nat ->
  (forall i o, (i < lo)%nat -> nth_error a i = Some o -> str_ltb (f o) x = true) ->
  (forall i o, (hi <= i)%nat -> nth_error a i = Some o -> str_ltb (f o) x = false) ->
  exists n, bisect_go fuel a (PStr x) key lo hi = Ok n /\
    (forall i o, (i < n)%nat -> nth_error a i = Some o -> str_ltb (f o) x = true) /\
    (forall i o, (n <= i)%nat -> nth_error a i = Some o -> str_ltb (f o) x = false).
Proof.
  revert lo hi. induction fuel as [|fuel IH]; intros lo hi Hb Hf Hlo Hhi; cbn [bisect_go].
  - exists lo. split; [reflexivity|]. split; [exact Hlo|].
    intros i o Hi. apply Hhi. lia.
  - destruct (Nat.ltb_spec lo hi) as [Hlt|Hge].
    + pose proof (div2_bounds lo hi Hlt) as Hm.
      set (mid := Nat.div (lo + hi) 2) in *.
      destruct (nth_error a mid) as [o|] eqn:E;
        [|apply nth_error_None in E; lia].
      rewrite Hkey. cbn [py_lt bind].
      destruct (str_ltb (f o) x) eqn:L.
      * apply IH; [lia|lia| |exact Hhi].
        intros i o' Hi Ho'. apply (Hmono i mid o' o); auto. lia.
      * apply IH; [lia|lia|exact Hlo|].
        intros i o' Hi Ho'. destruct (str_ltb (f o') x) eqn:L'; [|reflexivity].
        rewrite (Hmono mid i o o') in L by auto. discriminate.
    + exists lo. split; [reflexivity|]. split; [exact Hlo|].
      intros i o Hi. apply Hhi. lia.
Qed.
End Bisect.

Lemma find_first {A} (p : A -> bool) (l : list A) (o : A) :
  find p l = Some o -> exists j, nth_error l j = Some o /\ p o = true /\
    forall i o', (i < j)%nat -> nth_error l i = Some o' -> p o' = false.
Proof.
  induction l as [|y l IH]; cbn; [discriminate|].
  destruct (p y) eqn:P.
  - intros [= <-]. exists 0%nat. split; [reflexivity|]. split; [exact P|]. intros; lia.
  - intros F. destruct (IH F) as (j & J1 & J2 & J3). exists (S j).
    split; [exact J1|]. split; [exact J2|].
    intros [|i] o' Hi Ho'; cbn in Ho'; [now injection Ho' as <-|]. apply (J3 i); auto. lia.
Qed.

(** [_get_object_by_id] on a list sorted by its string ids, as
    [_sort_all_raw_data_list] leaves every collection: the binary search (and
    the linear scan when it is chosen) returns the first object carrying the
    id, and an id that no object carries raises [KeyError]. *)
Theorem get_object_by_id_sorted {A} (objs : list A) (f : A -> string) (k : string)
  (key : A -> option pyval) (x : string) (s : option bool) :
  (forall o, key o = Some (PStr (f o))) -> id_sorted f objs ->
  get_object_by_id objs k key (PStr x) s = first_with_id f objs x.
Proof.
  intros Hk S. unfold first_with_id.
  assert (Hpy : forall o, py_eq (key o) (PStr x) = String.eqb (f o) x)
    by (intros o; now rewrite Hk).
  destruct (find (fun o => String.eqb (f o) x) objs) as [o|] eqn:F.
  2:{ apply get_object_by_id_absent.
      - intros o _. eauto.
      - intros o Ho. rewrite Hpy. destruct (String.eqb (f o) x) eqn:E; [|reflexivity].
        exfalso. pose proof (find_none _ _ F o Ho) as C. cbn beta in C. congruence. }
  unfold get_object_by_id. cbv zeta.
  assert (Fpy : find (fun o => py_eq (key o) (PStr x)) objs = Some o)
    by (rewrite <- F; clear F; induction objs as [|y l IH]; cbn; [reflexivity|];
        rewrite Hpy, IH; [reflexivity|]; now apply Sorted_inv in S as [S _]).
  destruct (match s with Some b => b | None => _ end); [|rewrite Fpy; reflexivity].
  apply find_first in F as (j & J1 & J2 & J3). apply String.eqb_eq in J2.
  apply Sorted_StronglySorted in S;
    [|intros ? ? ? H1 H2; exact (str_le_trans _ _ _ H1 H2)].
  assert (Hmono : forall i j oi oj, (i <= j)%nat -> nth_error objs i = Some oi ->
            nth_error objs j = Some oj -> str_ltb (f oj) x = true -> str_ltb (f oi) x = true).
  { intros i j' oi oj Hij Hi Hj L. destruct (Nat.eq_dec i j') as [->|Hne].
    - rewrite Hi in Hj. now injection Hj as ->.
    - apply (str_lt_le_trans _ (f oj)); [|exact L].
      exact (StronglySorted_nth _ _ i j' oi oj S ltac:(lia) Hi Hj). }
  unfold bisect_left.
  destruct (bisect_go_spec A f key Hk objs x Hmono (List.length objs) 0 (List.length objs))
    as (n & Hb & Hlt & Hge); try lia.
  { intros i o' Hi Ho'. apply nth_error_None in Hi. congruence. }
  rewrite Hb. cbn [bind].
  assert (Hnj : (n <= j)%nat).
  { destruct (Nat.le_gt_cases n j) as [H|H]; [exact H|].
    pose proof (Hlt j o H J1) as L. rewrite J2, str_ltb_irrefl in L. discriminate. }
  assert (Hjl : (j < List.length objs)%nat) by (apply nth_error_Some; congruence).
  destruct (nth_error objs n) as [on|] eqn:N; [|apply nth_error_None in N; lia].
  assert (Eon : f on = x).
  { pose proof (Hge n on (le_n n) N) as L1.
    destruct (Nat.eq_dec n j) as [->|Hne]; [rewrite N in J1; injection J1 as ->; exact J2|].
    pose proof (StronglySorted_nth _ _ n j on o S ltac:(lia) N J1) as L2. cbn beta in L2.
    rewrite J2 in L2. exact (str_ltb_total _ _ L1 L2). }
  rewrite Hpy, Eon, String.eqb_refl.
  destruct (Nat.eq_dec n j) as [->|Hne]; [congruence|].
  pose proof (J3 n on ltac:(lia) N) as C. cbn beta in C. rewrite Eon, String.eqb_refl in C.
  discriminate.
Qed.

Lemma get_object_by_id_sorted_witness :
  get_object_by_id [mk_stop "a" "A" false; mk_stop "b" "B1" false; mk_stop "b" "B2" false]
    "stop_id" stop_key (PStr "b") None =
  first_with_id stop_id [mk_stop "a" "A" false; mk_stop "b" "B1" false; mk_stop "b" "B2" false] "b".
Proof.
  apply get_object_by_id_sorted; [reflexivity|].
  unfold id_sorted. repeat constructor.
Defined.

(** Composing the two: after [_sort_all_raw_data_list], looking a duty,
    vehicle, trip or stop up by id returns the first record with that id in
    the order of the input file, or raises [KeyError] when there is none. *)
Theorem get_object_by_id_after_sort (ds : dataset) (x : string) (s : option bool) :
  let ds' := sort_all_raw_data_list ds in
  get_object_by_id (duties ds') "duty_id" duty_key (PStr x) s = first_with_id duty_id (duties ds) x /\
  get_object_by_id (vehicles ds') "vehicle_id" vehicle_key (PStr x) s =
    first_with_id vehicle_id (vehicles ds) x /\
  get_object_by_id (trips ds') "trip_id" trip_key (PStr x) s = first_with_id trip_id (trips ds) x /\
  get_object_by_id (stops ds') "stop_id" stop_key (PStr x) s = first_with_id stop_id (stops ds) x.
Proof.
  assert (G : forall A (f : A -> string) key k l,
             (forall o, key o = Some (PStr (f o))) ->
             get_object_by_id (sort_by f l) k key (PStr x) s = first_with_id f l x).
  { intros A f key k l Hk. rewrite (get_object_by_id_sorted _ f) by
      (auto; apply (sort_by_sorted f l)).
    unfold first_with_id.
    assert (E : forall l1 l2 : list A,
              filter (fun o => String.eqb (f o) x) l1 = filter (fun o => String.eqb (f o) x) l2 ->
              find (fun o => String.eqb (f o) x) l1 = find (fun o => String.eqb (f o) x) l2).
    { intros l1 l2 Hf.
      assert (Hff : forall l0 : list A, find (fun o => String.eqb (f o) x) l0 =
                      hd_error (filter (fun o => String.eqb (f o) x) l0)).
      { induction l0 as [|y l0 IH]; cbn; [reflexivity|].
        destruct (String.eqb (f y) x); [reflexivity|exact IH]. }
      now rewrite !Hff, Hf. }
    now rewrite (E _ l (sort_by_stable f x l)). }
  cbn zeta. unfold sort_all_raw_data_list. cbn [duties vehicles trips stops].
  repeat split; apply G; reflexivity.
Qed.

(* ------------------------------------------------------------------ *)
(** ** [_validate_json_data] *)

Lemma check_ids_unique {A} (objs : list A) (id : A -> string) (ids : list string) :
  NoDup (map id objs) -> check_ids objs id ids = Ok tt.
Proof.
  intros Hn. induction ids as [|i ids IH]; [reflexivity|]. cbn [check_ids].
  assert (C : (List.length (filter (fun o => String.eqb (id o) i) objs) <= 1)%nat).
  { clear IH. induction objs as [|o objs IHo]; cbn; [lia|].
    inversion Hn as [|? ? Hni Hn']; subst.
    destruct (String.eqb_spec (id o) i) as [E|E]; cbn; [|auto].
    assert (Z0 : filter (fun o0 => String.eqb (id o0) i) objs = []).
    { destruct (filter (fun o0 => String.eqb (id o0) i) objs) as [|o' r] eqn:F; [reflexivity|].
      exfalso. assert (Ho' : In o' (filter (fun o0 => String.eqb (id o0) i) objs))
        by (rewrite F; now left).
      apply filter_In in Ho' as [Ho' Q]. apply String.eqb_eq in Q.
      apply Hni. rewrite E, <- Q. now apply in_map. }
    rewrite Z0. cbn. lia. }
  destruct (Nat.ltb_spec 1 (List.length (filter (fun o => String.eqb (id o) i) objs)));
    [lia|exact IH].
Qed.

Lemma check_unique_ids_nodup {A} (objs : list A) (id : A -> string) :
  check_unique_ids objs id = Ok tt -> NoDup (map id objs).
Proof.
  intros H.
  assert (C : forall i, In i (map id objs) ->
            (List.length (filter (fun o => String.eqb (id o) i) objs) <= 1)%nat).
  { intros i Hi. apply In_dedup_first in Hi. unfold check_unique_ids in H.
    revert Hi H. generalize (dedup_first (map id objs)) as ids. intros ids Hi Hc.
    induction ids as [|j ids IH]; [destruct Hi|]. cbn [check_ids] in Hc.
    destruct (Nat.ltb_spec 1 (List.length (filter (fun o => String.eqb (id o) j) objs))) as [L|L].
    - destruct (filter (fun o => String.eqb (id o) j) objs); cbn in L, Hc; [lia|discriminate].
    - destruct Hi as [<-|Hi]; [exact L|]. exact (IH Hi Hc). }
  clear H. induction objs as [|o objs IH]; cbn; [constructor|].
  constructor.
  - intros Hin. specialize (C (id o) (or_introl eq_refl)). cbn in C.
    rewrite String.eqb_refl in C. cbn in C.
    apply in_map_iff in Hin as (o' & E & Ho').
    assert (In o' (filter (fun o0 => String.eqb (id o0) (id o)) objs))
      by (apply filter_In; split; [exact Ho'|]; now apply String.eqb_eq).
    destruct (filter (fun o0 => String.eqb (id o0) (id o)) objs); [destruct H|cbn in C; lia].
  - apply IH. intros i Hi. specialize (C i (or_intror Hi)). cbn in C.
    destruct (String.eqb (id o) i); cbn in C; lia.
Qed.

(** [_validate_json_data] accepts a dataset exactly when it matches the
    schema and no id occurs twice within the duties, the vehicles, the trips
    or the stops. *)
Theorem validate_json_data_ok_iff (ds : dataset) :
  validate_json_data ds = Ok tt <->
  schema_valid ds = true /\ NoDup (map duty_id (duties ds)) /\
  NoDup (map vehicle_id (vehicles ds)) /\ NoDup (map trip_id (trips ds)) /\
  NoDup (map stop_id (stops ds)).
Proof.
  unfold validate_json_data. split.
  - destruct (schema_valid ds); [|discriminate].
    destruct (check_unique_ids (duties ds) duty_id) as [[]|] eqn:E1; cbn [bind]; [|discriminate].
    destruct (check_unique_ids (vehicles ds) vehicle_id) as [[]|] eqn:E2; cbn [bind];
      [|discriminate].
    destruct (check_unique_ids (trips ds) trip_id) as [[]|] eqn:E3; cbn [bind]; [|discriminate].
    intros E4. repeat split; eapply check_unique_ids_nodup; eassumption.
  - intros (Hs & H1 & H2 & H3 & H4). rewrite Hs. unfold check_unique_ids.
    rewrite !check_ids_unique by assumption. reflexivity.
Qed.

(* ------------------------------------------------------------------ *)
(** ** [_populate_duty_events_with_details], [_get_duty_event_time] and
       [_get_vehicle_event_by_index] *)

(** The two resolutions of a duty event agree: the start and end times that
    [_populate_duty_events_with_details] copies into an event are those
    [_get_duty_event_time] returns for it, and both raise the same exception
    on the same event. *)
Theorem populate_duty_event_agrees_with_get_duty_event_time
  (ds : dataset) (tags : list string) (ev : duty_event) :
  match populate_duty_event ds tags ev with
  | Ok r => get_duty_event_time ev ds "start" = Ok (ev_start_time r) /\
            get_duty_event_time ev ds "end" = Ok (ev_end_time r)
  | Err e => get_duty_event_time ev ds "start" = Err e /\ get_duty_event_time ev ds "end" = Err e
  end.
Proof.
  unfold populate_duty_event, get_duty_event_time.
  assert (Hs : py_contains "start" (py_lower "start") = true) by reflexivity.
  assert (He : py_contains "start" (py_lower "end") = false) by reflexivity.
  rewrite Hs, He.
  destruct ev as [vid idx|ty st en o d]; [|cbn; auto].
  destruct (get_vehicle_event_by_index ds vid idx) as [ve|e]; cbn [bind]; [|auto].
  destruct (ve_body ve) as [ty st en o d|tid]; [cbn; auto|].
  destruct (get_object_by_id (trips ds) "trip_id" trip_key (PStr tid) None); cbn; auto.
Qed.

Lemma in_tags_In (tags : list string) (t : string) : in_tags tags t = true <-> In t tags.
Proof.
  unfold in_tags. rewrite existsb_exists. split.
  - intros (x & Hx & E). apply String.eqb_eq in E. now subst.
  - intros H. exists t. split; [exact H|apply String.eqb_refl].
Qed.

(** A service trip is never a break and a duty event of type
    [vehicle_event] never matches by that name: two lists of
    [explicit_break_event_types] that list the same types apart from
    ["service_trip"] and ["vehicle_event"] resolve every event alike, so
    listing either of these two, anywhere, changes nothing. *)
Theorem populate_duty_event_ignores_trip_tags (ds : dataset) (tags tags' : list string)
  (ev : duty_event) :
  (forall t, t <> "service_trip" -> t <> "vehicle_event" -> (In t tags <-> In t tags')) ->
  populate_duty_event ds tags ev = populate_duty_event ds tags' ev.
Proof.
  intros Hs.
  assert (Ht : forall t, t <> "service_trip" -> t <> "vehicle_event" ->
             in_tags tags t = in_tags tags' t).
  { intros t H1 H2. specialize (Hs t H1 H2). rewrite <- !in_tags_In in Hs.
    destruct (in_tags tags t), (in_tags tags' t); intuition congruence. }
  unfold populate_duty_event. destruct ev as [vid idx|ty st en o d].
  - destruct (get_vehicle_event_by_index ds vid idx) as [ve|e]; cbn [bind]; [|reflexivity].
    destruct (ve_body ve) as [ty st en o d|tid]; [|reflexivity].
    rewrite Ht by (destruct ty; discriminate). reflexivity.
  - rewrite Ht by (destruct ty; discriminate). reflexivity.
Qed.

Lemma populate_duty_event_ignores_trip_tags_witness :
  populate_duty_event c4_dataset ["service_trip"; "sign_on"] (DEOwn SignOn "0.08:00" "0.08:30" "s1" "s1") =
  populate_duty_event c4_dataset ["sign_on"; "vehicle_event"] (DEOwn SignOn "0.08:00" "0.08:30" "s1" "s1").
Proof.
  apply populate_duty_event_ignores_trip_tags.
  intros t H1 H2. cbn. split; intros H; intuition congruence.
Defined.

(** [_get_vehicle_event_by_index] returns the event stored at position
    [idx] when its label is [str(idx)]; an index past the last event raises
    [IndexError], not [KeyError]. *)
Theorem get_vehicle_event_by_index_positional (ds : dataset) (vid : string) (v : vehicle)
  (idx : Z) :
  get_object_by_id (vehicles ds) "vehicle_id" vehicle_key (PStr vid) None = Ok v ->
  0 <= idx ->
  (forall e, nth_error (vehicle_events v) (Z.to_nat idx) = Some e ->
             py_str (vehicle_event_sequence e) = Z_to_string idx ->
             get_vehicle_event_by_index ds vid idx = Ok e) /\
  (Z.of_nat (List.length (vehicle_events v)) <= idx ->
   get_vehicle_event_by_index ds vid idx = Err IndexError).
Proof.
  intros Hv Hi. unfold get_vehicle_event_by_index. rewrite Hv. cbn [bind].
  unfold py_index. rewrite (proj2 (Z.ltb_ge idx 0) Hi), (proj2 (Z.ltb_ge idx 0) Hi).
  split.
  - intros e He Hl. rewrite He. cbn [bind]. now rewrite Hl, String.eqb_refl.
  - intros Hl. rewrite (proj2 (nth_error_None _ _)) by lia. reflexivity.
Qed.

Lemma get_vehicle_event_by_index_positional_witness :
  get_object_by_id (vehicles c4_dataset) "vehicle_id" vehicle_key (PStr "1") None =
    Ok (mk_vehicle "1" [c4_event]) /\
  get_vehicle_event_by_index c4_dataset "1" 0 = Ok c4_event /\
  get_vehicle_event_by_index c4_dataset "1" 1 = Err IndexError.
Proof.
  assert (Hv : get_object_by_id (vehicles c4_dataset) "vehicle_id" vehicle_key (PStr "1") None =
                 Ok (mk_vehicle "1" [c4_event])) by (vm_compute; reflexivity).
  split; [exact Hv|]. split.
  - apply (proj1 (get_vehicle_event_by_index_positional c4_dataset "1" _ 0 Hv ltac:(lia)));
      reflexivity.
  - apply (proj2 (get_vehicle_event_by_index_positional c4_dataset "1" _ 1 Hv ltac:(lia))).
    cbn. lia.
Defined.

(* ------------------------------------------------------------------ *)
(** ** [_get_relevant_service_trips] *)

(** Every trip id [_get_relevant_service_trips] returns is the trip of a
    [service_trip] event tagged with the duty, on one of the given vehicles
    that the dataset contains. *)
Theorem get_relevant_service_trips_sound (ds : dataset) (did : string) (vids ts : list string) :
  get_relevant_service_trips ds did vids = Ok ts ->
  forall t, In t ts -> exists v e, In (vehicle_id v) vids /\ In v (vehicles ds) /\
    In e (vehicle_events v) /\ ve_body e = VETrip t /\ ve_duty_id e = did.
Proof.
  revert ts. induction vids as [|vid vids IH]; intros ts H t Ht; cbn [get_relevant_service_trips] in H.
  - injection H as <-. destruct Ht.
  - destruct (get_object_by_id (vehicles ds) "vehicle_id" vehicle_key (PStr vid) (Some true))
      as [v|e] eqn:G; cbn [bind] in H; [|discriminate].
    destruct (get_relevant_service_trips ds did vids) as [rest|e] eqn:R; cbn [bind] in H;
      [|discriminate].
    injection H as <-. apply in_app_or in Ht as [Ht|Ht].
    + apply get_object_by_id_sound in G as [G1 G2]. cbn in G2. apply String.eqb_eq in G2.
      apply in_flat_map in Ht as (e & He & Ht). unfold service_trip_of in Ht.
      destruct (ve_body e) as [|t'] eqn:B; [destruct Ht|].
      destruct (String.eqb_spec (ve_duty_id e) did); [|destruct Ht].
      destruct Ht as [<-|[]]. exists v, e. rewrite G2. repeat split; auto. now left.
    + destruct (IH rest eq_refl t Ht) as (v0 & e0 & H1 & H2 & H3 & H4 & H5).
      exists v0, e0. repeat split; auto. now right.
Qed.

Lemma get_relevant_service_trips_sound_witness :
  get_relevant_service_trips c4_dataset "1" ["1"] = Ok ["1"] /\
  exists v e, In (vehicle_id v) ["1"] /\ In v (vehicles c4_dataset) /\
    In e (vehicle_events v) /\ ve_body e = VETrip "1" /\ ve_duty_id e = "1".
Proof.
  assert (H : get_relevant_service_trips c4_dataset "1" ["1"] = Ok ["1"])
    by (vm_compute; reflexivity).
  split; [exact H|]. apply (get_relevant_service_trips_sound _ _ _ _ H). now left.
Defined.

(* ------------------------------------------------------------------ *)
(** ** Step 1: order and origin of the rows *)

Lemma duty_start_end_row_id (ds : dataset) (d : duty) (r : row1) :
  duty_start_end_row ds d = Ok r -> row1_duty_id r = duty_id d.
Proof.
  unfold duty_start_end_row.
  repeat match goal with
    | |- context [bind ?m _] => destruct m; cbn [bind]; [|discriminate]
    end.
  now intros [= <-].
Qed.

Lemma start_end_rows_from (ds : dataset) (l : list duty) (rows : list row1) :
  start_end_rows ds l = Ok rows ->
  (forall r, In r rows -> exists d, In d l /\ duty_start_end_row ds d = Ok r) /\
  (StronglySorted (fun a b => str_ltb b a = false) (map duty_id l) ->
   StronglySorted (fun a b => str_ltb b a = false) (map row1_duty_id rows)).
Proof.
  revert rows. induction l as [|d l IH]; intros rows H; cbn [start_end_rows] in H.
  - injection H as <-. split; [intros r []|constructor].
  - destruct (duty_start_end_row ds d) as [r|[]] eqn:E;
      try discriminate; cycle 1.
    { destruct (IH rows H) as [I1 I2]. split.
      - intros r' Hr. destruct (I1 r' Hr) as (d' & Hd' & Ed'). exists d'. split; auto. now right.
      - intros S. apply I2. cbn [map] in S. now apply StronglySorted_inv in S as [S _]. }
    destruct (start_end_rows ds l) as [rest|e] eqn:R; cbn [bind] in H; [|discriminate].
    injection H as <-. destruct (IH rest eq_refl) as [I1 I2]. split.
    + intros r' [<-|Hr]; [exists d; split; [now left|exact E]|].
      destruct (I1 r' Hr) as (d' & Hd' & Ed'). exists d'. split; auto. now right.
    + intros S. cbn [map] in S |- *. apply StronglySorted_inv in S as [S F].
      constructor; [now apply I2|]. rewrite (duty_start_end_row_id _ _ _ E).
      apply Forall_forall. intros x Hx. apply in_map_iff in Hx as (r' & <- & Hr').
      destruct (I1 r' Hr') as (d' & Hd' & Ed'). rewrite (duty_start_end_row_id _ _ _ Ed').
      exact (proj1 (Forall_forall _ _) F _ (in_map _ _ _ Hd')).
Qed.

(** The start/end report works on [raw_data] sorted in place, lists its
    rows in ascending duty id order (Python string order), and each row is
    the one the per-duty computation gives for a duty of the dataset. *)
Theorem start_end_report_rows (ds ds' : dataset) (rows : list row1) :
  generate_duty_start_end_times_report ds = Ok (ds', rows) ->
  ds' = sort_all_raw_data_list ds /\
  Sorted (fun a b => str_ltb b a = false) (map row1_duty_id rows) /\
  forall r, In r rows -> exists d, In d (duties ds) /\ duty_start_end_row ds' d = Ok r.
Proof.
  unfold generate_duty_start_end_times_report.
  destruct (validate_json_data ds); cbn [bind]; [|discriminate].
  destruct (start_end_rows _ _) as [rs|e] eqn:R; cbn [bind]; [|discriminate].
  intros [= <- <-]. split; [reflexivity|].
  destruct (start_end_rows_from _ _ _ R) as [R1 R2]. split.
  - apply StronglySorted_Sorted, R2. unfold sort_all_raw_data_list. cbn [duties].
    pose proof (sort_by_sorted duty_id (duties ds)) as S.
    apply Sorted_StronglySorted in S; [|intros ? ? ? H1 H2; exact (str_le_trans _ _ _ H1 H2)].
    revert S. generalize (sort_by duty_id (duties ds)) as l. intros l S.
    induction S as [|d l S IH F]; cbn [map]; constructor; [exact IH|].
    apply Forall_forall. intros x Hx. apply in_map_iff in Hx as (d' & <- & Hd').
    exact (proj1 (Forall_forall _ _) F d' Hd').
  - intros r Hr. destruct (R1 r Hr) as (d & Hd & Ed). exists d. split; [|exact Ed].
    unfold sort_all_raw_data_list in Hd. cbn [duties] in Hd. now apply In_sort_by in Hd.
Qed.

Lemma start_end_report_rows_witness :
  generate_duty_start_end_times_report c7_dataset =
    Ok (sort_all_raw_data_list c7_dataset, [("2", "07:00", "07:10")]) /\
  (sort_all_raw_data_list c7_dataset = sort_all_raw_data_list c7_dataset /\
   Sorted (fun a b => str_ltb b a = false) (map row1_duty_id [("2", "07:00", "07:10")]) /\
   forall r, In r [("2", "07:00", "07:10")] -> exists d, In d (duties c7_dataset) /\
     duty_start_end_row (sort_all_raw_data_list c7_dataset) d = Ok r).
Proof.
  assert (H : generate_duty_start_end_times_report c7_dataset =
                Ok (sort_all_raw_data_list c7_dataset, [("2", "07:00", "07:10")]))
    by (vm_compute; reflexivity).
  split; [exact H|]. exact (start_end_report_rows _ _ _ H).
Defined.

(* ------------------------------------------------------------------ *)
(** ** Step 3: [generate_duty_breaks_report] *)

Lemma map_r_in {A B} (f : A -> result B) (xs : list A) (ys : list B) :
  map_r f xs = Ok ys -> forall y, In y ys -> exists x, In x xs /\ f x = Ok y.
Proof.
  revert ys. induction xs as [|x xs IH]; intros ys H y Hy; cbn [map_r] in H.
  - injection H as <-. destruct Hy.
  - destruct (f x) as [y0|e] eqn:F; cbn [bind] in H; [|discriminate].
    destruct (map_r f xs) as [ys0|e] eqn:R; cbn [bind] in H; [|discriminate].
    injection H as <-. destruct Hy as [<-|Hy]; [exists x; split; [now left|exact F]|].
    destruct (IH ys0 eq_refl y Hy) as (x' & H1 & H2). exists x'. split; [now right|exact H2].
Qed.

Lemma calculate_breaks_min (ds : dataset) (did : string) (m : Z) (tags : list string)
  (out : list (string * Z * string)) :
  calculate_breaks ds did m tags = Ok out -> forall b, In b out -> m <= snd (fst b).
Proof.
  unfold calculate_breaks.
  destruct (populate_duty_events_with_details ds did tags); cbn [bind]; [|discriminate].
  destruct (explicit_breaks _); cbn [bind]; [|discriminate].
  destruct (implicit_breaks _); cbn [bind]; [|discriminate].
  unfold transform_raw_breaks. intros H b Hb.
  destruct (map_r_in _ _ _ H b Hb) as (x & Hx & Fx).
  apply filter_In in Hx as [_ Hx]. apply Z.leb_le in Hx.
  destruct (day_offset_to_simple_time (break_start x)); cbn [bind] in Fx; [|discriminate].
  destruct (get_object_by_id _ _ _ _ _); cbn [bind] in Fx; [|discriminate].
  injection Fx as <-. exact Hx.
Qed.

Lemma cell_eq_dec (a b : cell) : {a = b} + {a <> b}.
Proof. decide equality. apply string_dec. Defined.

Lemma row2_eq_dec (a b : row2) : {a = b} + {a <> b}.
Proof. decide equality; first [apply cell_eq_dec | apply string_dec]. Defined.

Lemma breaks_rows_spec (ds : dataset) (m : Z) (tags : list string) (rows : list row2)
  (out : list row3) :
  breaks_rows ds m tags rows = Ok out ->
  (forall r, In r rows -> exists bs, (calculate_breaks ds (r_duty_id r) m tags = Ok bs /\
        forall b, In (r, b) out <-> In b bs) \/
      (calculate_breaks ds (r_duty_id r) m tags = Err KeyError /\ forall b, ~ In (r, b) out)) /\
  (forall p, In p out -> In (fst p) rows).
Proof.
  revert out. induction rows as [|r rows IH]; intros out H; cbn [breaks_rows] in H.
  - injection H as <-. split; [intros r []|intros p []].
  - assert (K : forall bs rest, breaks_rows ds m tags rows = Ok rest ->
              out = app (map (fun b => (r, b)) bs) rest ->
              (calculate_breaks ds (r_duty_id r) m tags = Ok bs \/
               (bs = [] /\ calculate_breaks ds (r_duty_id r) m tags = Err KeyError)) ->
              (forall r', In r' (r :: rows) -> exists bs',
                  (calculate_breaks ds (r_duty_id r') m tags = Ok bs' /\
                   forall b, In (r', b) out <-> In b bs') \/
                  (calculate_breaks ds (r_duty_id r') m tags = Err KeyError /\
                   forall b, ~ In (r', b) out)) /\
              (forall p, In p out -> In (fst p) (r :: rows))).
    { intros bs rest R -> C. destruct (IH rest R) as [I1 I2].
      assert (Hout : forall r' b, In (r', b) (app (map (fun b => (r, b)) bs) rest) <->
                       (r' = r /\ In b bs) \/ In (r', b) rest).
      { intros r' b. rewrite in_app_iff, in_map_iff. split.
        - intros [(b' & E & Hb)|Hb]; [injection E as -> ->; now left|now right].
        - intros [[-> Hb]|Hb]; [left; exists b; split; auto|now right]. }
      split.
      - intros r' Hr'.
        destruct (in_dec row2_eq_dec r' rows) as [Hin|Hnin].
        + destruct (I1 r' Hin) as (bs' & [[B1 B2]|[B1 B2]]).
          * exists bs'. left. split; [exact B1|]. intros b. rewrite Hout, B2.
            split; [intros [[-> Hb]|Hb]; [|exact Hb]|intros Hb; now right].
            destruct C as [C|[_ C]]; congruence.
          * exists []. right. split; [exact B1|]. intros b Hb. apply Hout in Hb as [[-> Hb]|Hb].
            -- destruct C as [C|[-> C]]; [congruence|destruct Hb].
            -- exact (B2 b Hb).
        + destruct Hr' as [<-|Hr']; [|contradiction].
          destruct C as [C|[-> C]].
          * exists bs. left. split; [exact C|]. intros b. rewrite Hout.
            split; [intros [[_ Hb]|Hb]; [exact Hb|]|intros Hb; left; auto].
            exfalso. apply Hnin. exact (I2 _ Hb).
          * exists []. right. split; [exact C|]. intros b Hb. apply Hout in Hb as [[_ []]|Hb].
            apply Hnin. exact (I2 _ Hb).
      - intros [r' b] Hp. apply Hout in Hp as [[-> _]|Hp]; [now left|right; exact (I2 _ Hp)]. }
    destruct (calculate_breaks ds (r_duty_id r) m tags) as [bs|[]] eqn:C; cbn [bind] in H;
      try discriminate;
      destruct (breaks_rows ds m tags rows) as [rest|e] eqn:R; cbn [bind] in H; try discriminate;
      injection H as <-.
    + exact (K bs rest eq_refl eq_refl (or_introl eq_refl)).
    + exact (K [] rest eq_refl eq_refl (or_intror (conj eq_refl eq_refl))).
Qed.

(** Each row of the breaks report pairs a row of the location-aware report
    with one of the breaks [_calculate_breaks] returns for that duty, whose
    duration is at least [min_duration_mins]. A duty of the location-aware
    report has rows exactly when [_calculate_breaks] returns a nonempty list
    for it; a duty whose lookups raise [KeyError] gets none. *)
Theorem breaks_report_rows (ds : dataset) (m : Z) (tags : list string) (out : list row3) :
  generate_duty_breaks_report ds m tags = Ok out ->
  exists ds' rows, generate_duty_start_end_times_and_stops_report ds = Ok (ds', rows) /\
    (forall p, In p out -> In (fst p) rows /\ m <= row3_duration p /\
       exists bs, calculate_breaks ds' (r_duty_id (fst p)) m tags = Ok bs /\ In (snd p) bs) /\
    (forall r, In r rows ->
       ((exists b, In (r, b) out) <->
        exists b bs, calculate_breaks ds' (r_duty_id r) m tags = Ok (b :: bs))).
Proof.
  unfold generate_duty_breaks_report.
  destruct (generate_duty_start_end_times_and_stops_report ds) as [[ds' rows]|e]; cbn [bind];
    [|discriminate].
  intros H. exists ds', rows. split; [reflexivity|].
  destruct (breaks_rows_spec _ _ _ _ _ H) as [S1 S2]. split.
  - intros [r b] Hp. pose proof (S2 _ Hp) as Hr. cbn [fst snd] in *. split; [exact Hr|].
    destruct (S1 r Hr) as (bs & [[B1 B2]|[B1 B2]]); [|now apply B2 in Hp].
    apply B2 in Hp. split; [exact (calculate_breaks_min _ _ _ _ _ B1 b Hp)|].
    exists bs. split; assumption.
  - intros r Hr. destruct (S1 r Hr) as (bs & [[B1 B2]|[B1 B2]]).
    + rewrite B1. split.
      * intros [b Hb]. apply B2 in Hb. destruct bs as [|b0 bs]; [destruct Hb|].
        exists b0, bs. reflexivity.
      * intros (b & bs' & E). injection E as ->. exists b. apply B2. now left.
    + rewrite B1. split; [intros [b Hb]; now apply B2 in Hb|intros (? & ? & E); discriminate].
Qed.

Lemma breaks_report_rows_witness :
  generate_duty_breaks_report c2_dataset 16 ["sign_on"] =
    Ok (map (fun b => (mk_row2 "d0" "22:00" "02:00" (CStr "") (CStr ""), b))
            [("01:00", 60, "Stop 2"); ("22:00", 60, "Stop 1"); ("23:00", 120, "Stop 1")]) /\
  exists ds' rows, generate_duty_start_end_times_and_stops_report c2_dataset = Ok (ds', rows) /\
    (forall p, In p (map (fun b => (mk_row2 "d0" "22:00" "02:00" (CStr "") (CStr ""), b))
            [("01:00", 60, "Stop 2"); ("22:00", 60, "Stop 1"); ("23:00", 120, "Stop 1")]) ->
       In (fst p) rows /\ 16 <= row3_duration p /\
       exists bs, calculate_breaks ds' (r_duty_id (fst p)) 16 ["sign_on"] = Ok bs /\ In (snd p) bs) /\
    (forall r, In r rows ->
       ((exists b, In (r, b) (map (fun b => (mk_row2 "d0" "22:00" "02:00" (CStr "") (CStr ""), b))
            [("01:00", 60, "Stop 2"); ("22:00", 60, "Stop 1"); ("23:00", 120, "Stop 1")])) <->
        exists b bs, calculate_breaks ds' (r_duty_id r) 16 ["sign_on"] = Ok (b :: bs))).
Proof.
  assert (H : generate_duty_breaks_report c2_dataset 16 ["sign_on"] =
    Ok (map (fun b => (mk_row2 "d0" "22:00" "02:00" (CStr "") (CStr ""), b))
            [("01:00", 60, "Stop 2"); ("22:00", 60, "Stop 1"); ("23:00", 120, "Stop 1")]))
    by (vm_compute; reflexivity).
  split; [exact H|]. exact (breaks_report_rows _ _ _ _ H).
Defined.

Lemma breaks_rows_abort (ds : dataset) (m : Z) (tags : list string) (rows : list row2)
  (r : row2) (e : exn) :
  In r rows -> calculate_breaks ds (r_duty_id r) m tags = Err e -> e <> KeyError ->
  exists e', breaks_rows ds m tags rows = Err e'.
Proof.
  induction rows as [|r0 rows IH]; intros Hin Hc He; [destruct Hin|].
  cbn [breaks_rows]. destruct Hin as [<-|Hin].
  - rewrite Hc. destruct e; try congruence; cbn [bind]; eauto.
  - destruct (IH Hin Hc He) as [e' E].
    destruct (calculate_breaks ds (r_duty_id r0) m tags) as [bs|[]]; cbn [bind];
      rewrite ?E; cbn [bind]; eauto.
Qed.

(** Only [KeyError] is handled per duty in the breaks report: any other
    exception of [_calculate_breaks] for one duty of the location-aware
    report, such as the [ValueError] of a duration, aborts the whole report. *)
Theorem breaks_report_aborts_on_other_errors (ds ds' : dataset) (rows : list row2) (m : Z)
  (tags : list string) (r : row2) (e : exn) :
  generate_duty_start_end_times_and_stops_report ds = Ok (ds', rows) -> In r rows ->
  calculate_breaks ds' (r_duty_id r) m tags = Err e -> e <> KeyError ->
  exists e', generate_duty_breaks_report ds m tags = Err e'.
Proof.
  intros H2 Hin Hc He. unfold generate_duty_breaks_report. rewrite H2. cbn [bind].
  exact (breaks_rows_abort _ _ _ _ _ _ Hin Hc He).
Qed.

Lemma breaks_report_aborts_on_other_errors_witness :
  generate_duty_start_end_times_and_stops_report hour_only_dataset =
    Ok (sort_all_raw_data_list hour_only_dataset, [mk_row2 "1" "10" "11:00" (CStr "") (CStr "")]) /\
  calculate_breaks (sort_all_raw_data_list hour_only_dataset) "1" 16 ["sign_on"] = Err ValueError /\
  exists e', generate_duty_breaks_report hour_only_dataset 16 ["sign_on"] = Err e'.
Proof.
  assert (H2 : generate_duty_start_end_times_and_stops_report hour_only_dataset =
    Ok (sort_all_raw_data_list hour_only_dataset, [mk_row2 "1" "10" "11:00" (CStr "") (CStr "")]))
    by (vm_compute; reflexivity).
  assert (Hc : calculate_breaks (sort_all_raw_data_list hour_only_dataset) "1" 16 ["sign_on"] =
                 Err ValueError) by (vm_compute; reflexivity).
  split; [exact H2|]. split; [exact Hc|].
  apply (breaks_report_aborts_on_other_errors _ _ _ _ _ (mk_row2 "1" "10" "11:00" (CStr "") (CStr ""))
           ValueError H2); [now left|exact Hc|discriminate].
Defined.

(* ------------------------------------------------------------------ *)
(** ** [export_report_by_type] *)

Lemma length_list_ascii (s : string) : List.length (list_ascii_of_string s) = String.length s.
Proof. induction s as [|c s IH]; cbn; [reflexivity|now rewrite IH]. Qed.

Lemma py_endswith_app (s suffix : string) : py_endswith suffix (s ++ suffix) = true.
Proof.
  unfold py_endswith. rewrite list_ascii_of_string_app, length_app, !length_list_ascii.
  rewrite (proj2 (Nat.leb_le _ _)) by lia. cbn [andb].
  replace (String.length s + String.length suffix - String.length suffix)%nat
    with (List.length (list_ascii_of_string s)) by (rewrite length_list_ascii; lia).
  rewrite skipn_app, skipn_all, Nat.sub_diag, skipn_O. cbn [app].
  rewrite string_of_list_ascii_of_string. apply String.eqb_refl.
Qed.

(** Where [export_report_by_type] saves: the path always ends in
    ["." ++ output_format]; a path already ending so is kept as given, any
    other gets the extension appended once. *)
Theorem export_report_by_type_path (ds : dataset) (report_type save_file_path output_format : string)
  (m : Z) (tags : list string) (path : string) (w : writer) (rep : report) :
  export_report_by_type ds report_type save_file_path output_format m tags = Ok (path, w, rep) ->
  py_endswith ("." ++ output_format) path = true /\
  path = (if py_endswith ("." ++ output_format) save_file_path then save_file_path
          else save_file_path ++ "." ++ output_format).
Proof.
  unfold export_report_by_type.
  destruct (generate_report_by_type ds report_type m tags) as [r|e]; cbn [bind]; [|discriminate].
  set (p := if py_endswith ("." ++ output_format) save_file_path then save_file_path
            else save_file_path ++ "." ++ output_format).
  assert (Hp : py_endswith ("." ++ output_format) p = true).
  { subst p. destruct (py_endswith ("." ++ output_format) save_file_path) eqn:E; [exact E|].
    apply py_endswith_app. }
  intros H. assert (path = p).
  { destruct (String.eqb output_format "csv"); [congruence|].
    destruct (String.eqb output_format "xlsx"); [congruence|].
    destruct (String.eqb output_format "txt"); congruence. }
  subst path. split; [exact Hp|reflexivity].
Qed.

Lemma export_report_by_type_path_witness :
  export_report_by_type c9_dataset "duty_start_end_times" "out" "csv" 16 [] =
    Ok ("out.csv", ToCsv ",", Report1 [("1", "07:00", "07:10")]) /\
  (py_endswith ".csv" "out.csv" = true /\ "out.csv" = "out" ++ "." ++ "csv").
Proof.
  assert (H : export_report_by_type c9_dataset "duty_start_end_times" "out" "csv" 16 [] =
                Ok ("out.csv", ToCsv ",", Report1 [("1", "07:00", "07:10")]))
    by (vm_compute; reflexivity).
  split; [exact H|]. exact (export_report_by_type_path _ _ _ _ _ _ _ _ _ H).
Defined.

(** Errors of [export_report_by_type] before anything is written: an error
    in generating the report is raised as it is, whatever the output format;
    once the report is built, an output format other than csv, xlsx or txt
    raises [ValueError], so an unknown format is only reported after the
    report has been computed. *)
Theorem export_report_by_type_errors (ds : dataset) (report_type save_file_path output_format : string)
  (m : Z) (tags : list string) :
  (forall e, generate_report_by_type ds report_type m tags = Err e ->
     export_report_by_type ds report_type save_file_path output_format m tags = Err e) /\
  (forall r, generate_report_by_type ds report_type m tags = Ok r ->
     known_output_format output_format = false ->
     export_report_by_type ds report_type save_file_path output_format m tags = Err ValueError).
Proof.
  unfold export_report_by_type. split.
  - intros e H. rewrite H. reflexivity.
  - intros r H Hk. rewrite H. cbn [bind]. unfold known_output_format in Hk.
    destruct (String.eqb output_format "csv"), (String.eqb output_format "xlsx"),
      (String.eqb output_format "txt"); cbn [orb] in Hk; congruence.
Qed.

Lemma export_report_by_type_errors_witness :
  export_report_by_type c6_dataset "duty_start_end_times" "out" "pdf" 16 [] = Err ValidationError /\
  export_report_by_type c9_dataset "duty_start_end_times" "out" "pdf" 16 [] = Err ValueError.
Proof.
  split.
  - apply (proj1 (export_report_by_type_errors c6_dataset "duty_start_end_times" "out" "pdf" 16 [])).
    vm_compute. reflexivity.
  - apply (proj2 (export_report_by_type_errors c9_dataset "duty_start_end_times" "out" "pdf" 16 [])
             (Report1 [("1", "07:00", "07:10")])); vm_compute; reflexivity.
Defined.

(** An unknown report type raises [ValueError] whatever the dataset and the
    output format: the type is checked before any report is generated. *)
Theorem export_report_by_type_unknown_type (ds : dataset)
  (report_type save_file_path output_format : string) (m : Z) (tags : list string) :
  report_type <> "duty_start_end_times" -> report_type <> "duty_start_end_times_and_stops" ->
  report_type <> "duty_breaks" ->
  export_report_by_type ds report_type save_file_path output_format m tags = Err ValueError.
Proof.
  intros H1 H2 H3. unfold export_report_by_type, generate_report_by_type.
  destruct (String.eqb_spec report_type "duty_start_end_times"); [contradiction|].
  destruct (String.eqb_spec report_type "duty_start_end_times_and_stops"); [contradiction|].
  destruct (String.eqb_spec report_type "duty_breaks"); [contradiction|reflexivity].
Qed.

Lemma export_report_by_type_unknown_type_witness :
  export_report_by_type c6_dataset "duty_report" "out" "pdf" 16 [] = Err ValueError.
Proof. apply export_report_by_type_unknown_type; discriminate. Defined.
